(** * Text-generation notebooks: a shallow embedding

    The repository holds two Jupyter notebooks.  The Falcon notebook loads a
    [transformers.pipeline] and prints every sequence it returns; the
    Mistral notebook (inference.ipynb) builds a 4-bit quantisation
    configuration, loads the model and the tokenizer, calls
    [model.generate] once and prints the first decoded row.

    A notebook cell is embedded as a computation over the kernel state:
    the global namespace of the notebook, the hidden state of the
    transformers library, what has been printed so far and the log of the
    calls that crossed into the library.  The library itself (weights,
    tokenisation, sampling) is not part of the repository; it is a record
    of handlers, and every statement below is quantified over it. *)

From Stdlib Require Import ZArith List String Ascii Bool Lia.
From ExtLib Require Import Structures.Monad Structures.MonadExc.
Import ListNotations.
Import MonadNotation.
Local Open Scope monad_scope.
Local Open Scope string_scope.

Set Implicit Arguments.

(** ** Python values that cross the library boundary *)

(** Exceptions that can end a cell.  [KeyboardInterrupt] is what the
    captured traceback of the Falcon generation cell shows; [NameError] is
    a global read before the cell that binds it has run; [IndexError] is
    [decoded[0]] on an empty list; [LibraryError] is anything else raised
    inside the library (out of memory, bad argument, ...). *)
Inductive PyExn : Type :=
| KeyboardInterrupt
| NameError (name : string)
| IndexError
| LibraryError (what : string).

Inductive Outcome (A : Type) : Type :=
| Returned (a : A)
| Raised (e : PyExn).
Arguments Returned {A} a.
Arguments Raised {A} e.

(** The outcome of a statement whose value is not used. *)
Definition discard {A} (o : Outcome A) : Outcome unit :=
  match o with
  | Returned _ => Returned tt
  | Raised e => Raised e
  end.

Inductive TorchDtype : Type := bfloat16 | float16 | float32.

(** Keyword arguments forwarded to generation.  [None] is a keyword that
    the call site does not pass. *)
Record GenerateKwargs : Type := {
  max_length : option Z;
  max_new_tokens : option Z;
  do_sample : option bool;
  top_k : option Z;
  num_return_sequences : option Z;
  eos_token_id : option Z
}.

(** One element of the list a text-generation pipeline returns:
    a dict with the key ['generated_text']. *)
Record GeneratedDict : Type := { generated_text : string }.

(** What [tokenizer(text, return_tensors="pt")] returns: one row per input
    text. *)
Record BatchEncoding : Type := {
  input_ids : list (list Z);
  attention_mask : list (list Z)
}.

(** A loaded tokenizer, as far as the notebooks touch it: the model it was
    loaded for and its two special-token attributes. *)
Record Tokenizer : Type := {
  tok_name : string;
  tok_bos_token_id : option Z;
  tok_eos_token_id : option Z
}.

Definition set_bos_token_id (v : Z) (t : Tokenizer) : Tokenizer :=
  {| tok_name := tok_name t;
     tok_bos_token_id := Some v;
     tok_eos_token_id := tok_eos_token_id t |}.

(** Arguments of [transformers.BitsAndBytesConfig(...)] as the Mistral
    notebook passes them. *)
Record BitsAndBytesConfig : Type := {
  load_in_4bit : bool;
  bnb_4bit_use_double_quant : bool;
  bnb_4bit_quant_type : string;
  bnb_4bit_compute_dtype : TorchDtype
}.

(** ** The external library *)

(** Every entry point the notebooks call.  [World] is the library's hidden
    state (random generator, device memory, caches); each call may change
    it and may raise. *)
Record Library : Type := {
  World : Type;
  PipelineObj : Type;
  ModelObj : Type;
  AutoTokenizer_from_pretrained :
    string -> World -> Outcome Tokenizer * World;
  transformers_pipeline :
    string -> string -> Tokenizer -> TorchDtype -> bool -> string ->
    World -> Outcome PipelineObj * World;
  pipeline_call :
    PipelineObj -> string -> GenerateKwargs ->
    World -> Outcome (list GeneratedDict) * World;
  BitsAndBytesConfig_init :
    BitsAndBytesConfig -> World -> Outcome BitsAndBytesConfig * World;
  AutoModelForCausalLM_from_pretrained :
    string -> bool -> TorchDtype -> BitsAndBytesConfig ->
    World -> Outcome ModelObj * World;
  tokenizer_call :
    Tokenizer -> string -> string -> bool ->
    World -> Outcome BatchEncoding * World;
  model_generate :
    ModelObj -> BatchEncoding -> GenerateKwargs ->
    World -> Outcome (list (list Z)) * World;
  tokenizer_batch_decode :
    Tokenizer -> list (list Z) -> World -> Outcome (list string) * World
}.

(** The log of calls into the library, with the arguments they carried. *)
Inductive Call (L : Library) : Type :=
| LoadTokenizer (name : string)
| BuildPipeline (task model : string) (tok : Tokenizer)
| PipelineCall (p : PipelineObj L) (prompt : string) (kw : GenerateKwargs)
| BuildQuantConfig (cfg : BitsAndBytesConfig)
| LoadModel (name : string) (cfg : BitsAndBytesConfig)
| TokenizerCall (tok : Tokenizer) (text : string)
| ModelGenerate (m : ModelObj L) (inp : BatchEncoding) (kw : GenerateKwargs)
| BatchDecode (tok : Tokenizer) (ids : list (list Z)).
Arguments LoadTokenizer {L} name.
Arguments BuildPipeline {L} task model tok.
Arguments PipelineCall {L} p prompt kw.
Arguments BuildQuantConfig {L} cfg.
Arguments LoadModel {L} name cfg.
Arguments TokenizerCall {L} tok text.
Arguments ModelGenerate {L} m inp kw.
Arguments BatchDecode {L} tok ids.

(** The two calls that run the model: the generation capability proper. *)
Definition is_generation_call {L} (c : Call L) : bool :=
  match c with
  | PipelineCall _ _ _ | ModelGenerate _ _ _ => true
  | _ => false
  end.

Definition generation_calls {L} (cs : list (Call L)) : nat :=
  List.length (filter is_generation_call cs).

(** ** Kernel state and the cell monad *)

Record Kernel (L : Library) (NS : Type) : Type := {
  ns : NS;
  world : World L;
  stdout : list string;
  calls : list (Call L)
}.

(** A cell is a state transformer that may end in a Python exception.  The
    state survives the exception: what was printed and what was assigned
    before the raise stays. *)
Definition Cell (L : Library) (NS A : Type) : Type :=
  Kernel L NS -> Outcome A * Kernel L NS.

Section CellMonad.
Context {L : Library} {NS : Type}.

Definition cell_ret {A} (a : A) : Cell L NS A := fun k => (Returned a, k).

Definition cell_bind {A B} (c : Cell L NS A) (f : A -> Cell L NS B)
  : Cell L NS B :=
  fun k =>
    match c k with
    | (Returned a, k') => f a k'
    | (Raised e, k') => (Raised e, k')
    end.

Definition cell_raise {A} (e : PyExn) : Cell L NS A :=
  fun k => (Raised e, k).

(** The notebooks have no [try]; the handler form is only here to make
    the exception structure complete. *)
Definition cell_catch {A} (c : Cell L NS A) (h : PyExn -> Cell L NS A)
  : Cell L NS A :=
  fun k =>
    match c k with
    | (Returned a, k') => (Returned a, k')
    | (Raised e, k') => h e k'
    end.

#[global] Instance Monad_Cell : Monad (Cell L NS) :=
  {| ret := @cell_ret; bind := @cell_bind |}.

#[global] Instance Exc_Cell : MonadExc PyExn (Cell L NS) :=
  {| raise := @cell_raise; catch := @cell_catch |}.

(** Reading a global: [NameError] when it is not bound yet. *)
Definition lookup {A} (name : string) (field : NS -> option A)
  : Cell L NS A :=
  fun k =>
    match field (ns k) with
    | Some v => (Returned v, k)
    | None => (Raised (NameError name), k)
    end.

(** Binding a global. *)
Definition assign (upd : NS -> NS) : Cell L NS unit :=
  fun k =>
    (Returned tt,
     {| ns := upd (ns k); world := world k;
        stdout := stdout k; calls := calls k |}).

(** [print(s)]: one more line on standard output. *)
Definition print (s : string) : Cell L NS unit :=
  fun k =>
    (Returned tt,
     {| ns := ns k; world := world k;
        stdout := stdout k ++ [s]; calls := calls k |}).

(** A call into the library: logged, then handled. *)
Definition extern {A} (c : Call L) (h : World L -> Outcome A * World L)
  : Cell L NS A :=
  fun k =>
    let (o, w') := h (world k) in
    (o, {| ns := ns k; world := w';
           stdout := stdout k; calls := calls k ++ [c] |}).

(** [for x in xs: body]. *)
Fixpoint for_each {A} (xs : list A) (body : A -> Cell L NS unit)
  : Cell L NS unit :=
  match xs with
  | [] => ret tt
  | x :: xs' => body x ;; for_each xs' body
  end.

(** [xs[0]]. *)
Definition index0 {A} (xs : list A) : Cell L NS A :=
  match xs with
  | x :: _ => ret x
  | [] => raise IndexError
  end.

(** Running cells one after the other, as the notebook user does: a cell
    that raises ends, and the next cell starts from the state it left. *)
Fixpoint run_cells (cs : list (Cell L NS unit)) (k : Kernel L NS)
  : list (Outcome unit) * Kernel L NS :=
  match cs with
  | [] => ([], k)
  | c :: cs' =>
      let (o, k1) := c k in
      let (os, k2) := run_cells cs' k1 in
      (o :: os, k2)
  end.

End CellMonad.

(** A fresh kernel: nothing printed, nothing called. *)
Definition fresh_kernel (L : Library) {NS} (n : NS) (w : World L)
  : Kernel L NS :=
  {| ns := n; world := w; stdout := []; calls := [] |}.

(** ** The Falcon notebook *)

Module Falcon.

(** Globals of the notebook; [None] is a name not bound yet. *)
Record NS (L : Library) : Type := {
  model7b : option string;
  model40b : option string;
  model : option string;
  tokenizer : option Tokenizer;
  pipeline : option (PipelineObj L);
  prompt : option string;
  sequences : option (list GeneratedDict);
  seq : option GeneratedDict
}.

Definition empty_ns (L : Library) : NS L :=
  {| model7b := None; model40b := None; model := None; tokenizer := None;
     pipeline := None; prompt := None; sequences := None; seq := None |}.

Section Cells.
Context {L : Library}.

Definition set_model7b (v : string) (n : NS L) : NS L :=
  {| model7b := Some v; model40b := model40b n; model := model n;
     tokenizer := tokenizer n; pipeline := pipeline n;
     prompt := prompt n; sequences := sequences n; seq := seq n |}.
Definition set_model40b (v : string) (n : NS L) : NS L :=
  {| model7b := model7b n; model40b := Some v; model := model n;
     tokenizer := tokenizer n; pipeline := pipeline n;
     prompt := prompt n; sequences := sequences n; seq := seq n |}.
Definition set_model (v : string) (n : NS L) : NS L :=
  {| model7b := model7b n; model40b := model40b n; model := Some v;
     tokenizer := tokenizer n; pipeline := pipeline n;
     prompt := prompt n; sequences := sequences n; seq := seq n |}.
Definition set_tokenizer (v : Tokenizer) (n : NS L) : NS L :=
  {| model7b := model7b n; model40b := model40b n; model := model n;
     tokenizer := Some v; pipeline := pipeline n;
     prompt := prompt n; sequences := sequences n; seq := seq n |}.
Definition set_pipeline (v : PipelineObj L) (n : NS L) : NS L :=
  {| model7b := model7b n; model40b := model40b n; model := model n;
     tokenizer := tokenizer n; pipeline := Some v;
     prompt := prompt n; sequences := sequences n; seq := seq n |}.
Definition set_prompt (v : string) (n : NS L) : NS L :=
  {| model7b := model7b n; model40b := model40b n; model := model n;
     tokenizer := tokenizer n; pipeline := pipeline n;
     prompt := Some v; sequences := sequences n; seq := seq n |}.
Definition set_sequences (v : list GeneratedDict) (n : NS L) : NS L :=
  {| model7b := model7b n; model40b := model40b n; model := model n;
     tokenizer := tokenizer n; pipeline := pipeline n;
     prompt := prompt n; sequences := Some v; seq := seq n |}.
Definition set_seq (v : GeneratedDict) (n : NS L) : NS L :=
  {| model7b := model7b n; model40b := model40b n; model := model n;
     tokenizer := tokenizer n; pipeline := pipeline n;
     prompt := prompt n; sequences := sequences n; seq := Some v |}.

(** The loading cell:
<<
  model7b = "tiiuae/falcon-7b"
  model40b = "tiiuae/falcon-40b"
  model = model7b
  tokenizer = AutoTokenizer.from_pretrained(model)
  pipeline = transformers.pipeline("text-generation", model,
      tokenizer=tokenizer, torch_dtype=torch.bfloat16,
      trust_remote_code=True, device_map="auto")
>> *)
Definition load_cell : Cell L (NS L) unit :=
  assign (set_model7b "tiiuae/falcon-7b") ;;
  assign (set_model40b "tiiuae/falcon-40b") ;;
  m7 <- lookup "model7b" (@model7b L) ;;
  assign (set_model m7) ;;
  m <- lookup "model" (@model L) ;;
  tok <- extern (LoadTokenizer m) (AutoTokenizer_from_pretrained L m) ;;
  assign (set_tokenizer tok) ;;
  m' <- lookup "model" (@model L) ;;
  tok' <- lookup "tokenizer" (@tokenizer L) ;;
  p <- extern (BuildPipeline "text-generation" m' tok')
         (transformers_pipeline L "text-generation" m' tok'
            bfloat16 true "auto") ;;
  assign (set_pipeline p).

(** The values the generation cell is written with.  They are the
    literals of the cell, which its first comment invites the user to
    edit ("Your prompt goes here!"). *)
Record GenerationRequest : Type := {
  req_prompt : string;
  req_max_length : option Z;
  req_do_sample : bool;
  req_top_k : option Z;
  req_num_return_sequences : Z
}.

(** The keywords of the [pipeline(...)] call.  The end-of-sequence id
    is not a literal: it is read from the tokenizer. *)
Definition kwargs_of (r : GenerationRequest) (tok : Tokenizer)
  : GenerateKwargs :=
  {| max_length := req_max_length r;
     max_new_tokens := None;
     do_sample := Some (req_do_sample r);
     top_k := req_top_k r;
     num_return_sequences := Some (req_num_return_sequences r);
     eos_token_id := tok_eos_token_id tok |}.

(** [f"Result: {seq['generated_text']}"] *)
Definition result_line (d : GeneratedDict) : string :=
  "Result: " ++ generated_text d.

(** The body of the loop: [seq] is bound, then the line is printed. *)
Definition print_body (s : GeneratedDict) : Cell L (NS L) unit :=
  assign (set_seq s) ;; print (result_line s).

(** The generation cell:
<<
  prompt = ...
  sequences = pipeline(prompt, max_length=..., do_sample=...,
      top_k=..., num_return_sequences=...,
      eos_token_id=tokenizer.eos_token_id)
  for seq in sequences:
      print(f"Result: {seq['generated_text']}")
>> *)
Definition generate (r : GenerationRequest) : Cell L (NS L) unit :=
  assign (set_prompt (req_prompt r)) ;;
  p <- lookup "pipeline" (@pipeline L) ;;
  pr <- lookup "prompt" (@prompt L) ;;
  tok <- lookup "tokenizer" (@tokenizer L) ;;
  seqs <- extern (PipelineCall p pr (kwargs_of r tok))
            (pipeline_call L p pr (kwargs_of r tok)) ;;
  assign (set_sequences seqs) ;;
  for_each seqs print_body.

(** The same request with another [top_k], or with none. *)
Definition with_top_k (v : option Z) (r : GenerationRequest)
  : GenerationRequest :=
  {| req_prompt := req_prompt r;
     req_max_length := req_max_length r;
     req_do_sample := req_do_sample r;
     req_top_k := v;
     req_num_return_sequences := req_num_return_sequences r |}.

(** The cell as it stands in the notebook. *)
Definition notebook_request : GenerationRequest :=
  {| req_prompt := "who invented computers";
     req_max_length := Some 5000%Z;
     req_do_sample := true;
     req_top_k := Some 10%Z;
     req_num_return_sequences := 1%Z |}.

Definition generation_cell : Cell L (NS L) unit :=
  generate notebook_request.

(** The loading cell has run: the two globals the generation cell
    reads are bound. *)
Definition loaded (k : Kernel L (NS L)) (p : PipelineObj L)
  (tok : Tokenizer) : Prop :=
  pipeline (ns k) = Some p /\ tokenizer (ns k) = Some tok.

End Cells.

End Falcon.

(** ** The Mistral notebook (inference.ipynb) *)

Module Mistral.

Record NS (L : Library) : Type := {
  model_name : option string;
  bnb_config : option BitsAndBytesConfig;
  model : option (ModelObj L);
  tokenizer : option Tokenizer;
  stop_token_ids : option (list Z);
  text : option string;
  encoded : option BatchEncoding;
  model_input : option BatchEncoding;
  generated_ids : option (list (list Z));
  decoded : option (list string)
}.

Definition empty_ns (L : Library) : NS L :=
  {| model_name := None; bnb_config := None; model := None;
     tokenizer := None; stop_token_ids := None; text := None;
     encoded := None; model_input := None; generated_ids := None;
     decoded := None |}.

Section Cells.
Context {L : Library}.

Definition set_model_name (v : string) (n : NS L) : NS L :=
  {| model_name := Some v; bnb_config := bnb_config n; model := model n;
     tokenizer := tokenizer n; stop_token_ids := stop_token_ids n;
     text := text n; encoded := encoded n; model_input := model_input n;
     generated_ids := generated_ids n; decoded := decoded n |}.
Definition set_bnb_config (v : BitsAndBytesConfig) (n : NS L) : NS L :=
  {| model_name := model_name n; bnb_config := Some v; model := model n;
     tokenizer := tokenizer n; stop_token_ids := stop_token_ids n;
     text := text n; encoded := encoded n; model_input := model_input n;
     generated_ids := generated_ids n; decoded := decoded n |}.
Definition set_model (v : ModelObj L) (n : NS L) : NS L :=
  {| model_name := model_name n; bnb_config := bnb_config n;
     model := Some v;
     tokenizer := tokenizer n; stop_token_ids := stop_token_ids n;
     text := text n; encoded := encoded n; model_input := model_input n;
     generated_ids := generated_ids n; decoded := decoded n |}.
Definition set_tokenizer (v : Tokenizer) (n : NS L) : NS L :=
  {| model_name := model_name n; bnb_config := bnb_config n;
     model := model n;
     tokenizer := Some v; stop_token_ids := stop_token_ids n;
     text := text n; encoded := encoded n; model_input := model_input n;
     generated_ids := generated_ids n; decoded := decoded n |}.
(** [stop_token_ids] is the one global for which unbinding is also
    needed, to compare kernels that differ in it in any way. *)
Definition set_stop_token_ids (v : option (list Z)) (n : NS L) : NS L :=
  {| model_name := model_name n; bnb_config := bnb_config n;
     model := model n;
     tokenizer := tokenizer n; stop_token_ids := v;
     text := text n; encoded := encoded n; model_input := model_input n;
     generated_ids := generated_ids n; decoded := decoded n |}.
Definition set_text (v : string) (n : NS L) : NS L :=
  {| model_name := model_name n; bnb_config := bnb_config n;
     model := model n;
     tokenizer := tokenizer n; stop_token_ids := stop_token_ids n;
     text := Some v; encoded := encoded n; model_input := model_input n;
     generated_ids := generated_ids n; decoded := decoded n |}.
Definition set_encoded (v : BatchEncoding) (n : NS L) : NS L :=
  {| model_name := model_name n; bnb_config := bnb_config n;
     model := model n;
     tokenizer := tokenizer n; stop_token_ids := stop_token_ids n;
     text := text n; encoded := Some v; model_input := model_input n;
     generated_ids := generated_ids n; decoded := decoded n |}.
Definition set_model_input (v : BatchEncoding) (n : NS L) : NS L :=
  {| model_name := model_name n; bnb_config := bnb_config n;
     model := model n;
     tokenizer := tokenizer n; stop_token_ids := stop_token_ids n;
     text := text n; encoded := encoded n; model_input := Some v;
     generated_ids := generated_ids n; decoded := decoded n |}.
Definition set_generated_ids (v : list (list Z)) (n : NS L) : NS L :=
  {| model_name := model_name n; bnb_config := bnb_config n;
     model := model n;
     tokenizer := tokenizer n; stop_token_ids := stop_token_ids n;
     text := text n; encoded := encoded n; model_input := model_input n;
     generated_ids := Some v; decoded := decoded n |}.
Definition set_decoded (v : list string) (n : NS L) : NS L :=
  {| model_name := model_name n; bnb_config := bnb_config n;
     model := model n;
     tokenizer := tokenizer n; stop_token_ids := stop_token_ids n;
     text := text n; encoded := encoded n; model_input := model_input n;
     generated_ids := generated_ids n; decoded := Some v |}.

(** The first code cell:
<<
  import torch
  from transformers import AutoModelForCausalLM, AutoTokenizer
  import transformers

  model_name = "filipealmeida/Mistral-7B-Instruct-v0.1-sharded"
>>
    It binds [torch], [AutoModelForCausalLM], [AutoTokenizer] and
    [transformers], and then [model_name]; no other cell binds any of the
    five.  The namespace keeps [model_name] alone for them: the imported
    names are bound exactly when [model_name] is. *)
Definition model_name_cell : Cell L (NS L) unit :=
  assign (set_model_name "filipealmeida/Mistral-7B-Instruct-v0.1-sharded").

(** Reading an imported name: bound once the first cell has run. *)
Definition imported (n : NS L) : option unit :=
  match model_name n with
  | Some _ => Some tt
  | None => None
  end.

(** The profile the notebook writes down. *)
Definition notebook_profile : BitsAndBytesConfig :=
  {| load_in_4bit := true;
     bnb_4bit_use_double_quant := true;
     bnb_4bit_quant_type := "nf4";
     bnb_4bit_compute_dtype := bfloat16 |}.

(** The configuration cell, with the profile it writes as a
    parameter:
<<
  bnb_config = transformers.BitsAndBytesConfig(
      load_in_4bit=True,
      bnb_4bit_use_double_quant=True,
      bnb_4bit_quant_type="nf4",
      bnb_4bit_compute_dtype=torch.bfloat16)
>> *)
Definition bnb_config_cell_with (profile : BitsAndBytesConfig)
  : Cell L (NS L) unit :=
  lookup "transformers" imported ;;
  lookup "torch" imported ;;
  cfg <- extern (BuildQuantConfig profile)
           (BitsAndBytesConfig_init L profile) ;;
  assign (set_bnb_config cfg).

Definition bnb_config_cell : Cell L (NS L) unit :=
  bnb_config_cell_with notebook_profile.

(** [model = AutoModelForCausalLM.from_pretrained(model_name,
    load_in_4bit=True, torch_dtype=torch.bfloat16,
    quantization_config=bnb_config)] *)
Definition model_cell : Cell L (NS L) unit :=
  lookup "AutoModelForCausalLM" imported ;;
  name <- lookup "model_name" (@model_name L) ;;
  lookup "torch" imported ;;
  cfg <- lookup "bnb_config" (@bnb_config L) ;;
  m <- extern (LoadModel name cfg)
         (AutoModelForCausalLM_from_pretrained L name true bfloat16 cfg) ;;
  assign (set_model m).

(** The tokenizer cell, with the stop list it writes as a parameter:
<<
  tokenizer = AutoTokenizer.from_pretrained(model_name)
  tokenizer.bos_token_id = 1
  stop_token_ids = [0]
  print(f"Successfully loaded the model {model_name} into memory")
>> *)
Definition tokenizer_cell_with (stops : list Z) : Cell L (NS L) unit :=
  lookup "AutoTokenizer" imported ;;
  name <- lookup "model_name" (@model_name L) ;;
  tok <- extern (LoadTokenizer name)
           (AutoTokenizer_from_pretrained L name) ;;
  assign (set_tokenizer tok) ;;
  tok' <- lookup "tokenizer" (@tokenizer L) ;;
  assign (set_tokenizer (set_bos_token_id 1 tok')) ;;
  assign (set_stop_token_ids (Some stops)) ;;
  name' <- lookup "model_name" (@model_name L) ;;
  print ("Successfully loaded the model " ++ name' ++ " into memory").

Definition tokenizer_cell : Cell L (NS L) unit :=
  tokenizer_cell_with [0%Z].

(** The keywords of the [model.generate] call: nothing but
    [max_new_tokens=200, do_sample=True]. *)
Definition generate_kwargs : GenerateKwargs :=
  {| max_length := None;
     max_new_tokens := Some 200%Z;
     do_sample := Some true;
     top_k := None;
     num_return_sequences := None;
     eos_token_id := None |}.

(** The generation cell, with its instruction text as a parameter:
<<
  text = "[INST] ... [/INST]"
  encoded = tokenizer(text, return_tensors="pt",
                      add_special_tokens=False)
  model_input = encoded
  generated_ids = model.generate( **model_input, max_new_tokens=200,
                                 do_sample=True)
  decoded = tokenizer.batch_decode(generated_ids)
  print(decoded[0])
>> *)
Definition generate (t : string) : Cell L (NS L) unit :=
  assign (set_text t) ;;
  tok <- lookup "tokenizer" (@tokenizer L) ;;
  txt <- lookup "text" (@text L) ;;
  enc <- extern (TokenizerCall tok txt)
           (tokenizer_call L tok txt "pt" false) ;;
  assign (set_encoded enc) ;;
  enc' <- lookup "encoded" (@encoded L) ;;
  assign (set_model_input enc') ;;
  m <- lookup "model" (@model L) ;;
  inp <- lookup "model_input" (@model_input L) ;;
  ids <- extern (ModelGenerate m inp generate_kwargs)
           (model_generate L m inp generate_kwargs) ;;
  assign (set_generated_ids ids) ;;
  tok2 <- lookup "tokenizer" (@tokenizer L) ;;
  ids' <- lookup "generated_ids" (@generated_ids L) ;;
  strs <- extern (BatchDecode tok2 ids')
            (tokenizer_batch_decode L tok2 ids') ;;
  assign (set_decoded strs) ;;
  strs' <- lookup "decoded" (@decoded L) ;;
  first <- index0 strs' ;;
  print first.

Definition generation_cell : Cell L (NS L) unit :=
  generate "[INST] ~Add your instrunctions here~ [/INST]".

(** The cells in notebook order. *)
Definition notebook : list (Cell L (NS L) unit) :=
  [model_name_cell; bnb_config_cell; model_cell; tokenizer_cell;
   generation_cell].

Definition loaded (k : Kernel L (NS L)) (m : ModelObj L)
  (tok : Tokenizer) : Prop :=
  model (ns k) = Some m /\ tokenizer (ns k) = Some tok.

(** The same kernel with another binding of [stop_token_ids]. *)
Definition with_stop_token_ids (v : option (list Z))
  (k : Kernel L (NS L)) : Kernel L (NS L) :=
  {| ns := set_stop_token_ids v (ns k); world := world k;
     stdout := stdout k; calls := calls k |}.

(** Two kernels that are equal once [stop_token_ids] is unbound in
    both: they differ at most in that global. *)
Definition same_but_stop_token_ids (k1 k2 : Kernel L (NS L)) : Prop :=
  with_stop_token_ids None k1 = with_stop_token_ids None k2.

End Cells.

End Mistral.

(** ** What the notebooks rely on from the library

    None of this is code of the repository.  Each statement is the
    documented behaviour of the transformers entry point it names, written
    as a property of a [Library]; a theorem that needs one takes it as a
    hypothesis. *)

Definition effective_num_return_sequences (kw : GenerateKwargs) : Z :=
  match num_return_sequences kw with
  | Some n => n
  | None => 1%Z
  end.

(** A text-generation pipeline called on one prompt returns
    [num_return_sequences] dicts, when that is a positive number.
    Nothing is asked of the library for a count below one. *)
Definition PipelineHonoursCount (L : Library) : Prop :=
  forall p prompt kw w seqs w',
    (1 <= effective_num_return_sequences kw)%Z ->
    pipeline_call L p prompt kw w = (Returned seqs, w') ->
    Z.of_nat (List.length seqs) = effective_num_return_sequences kw.


Definition set_top_k (v : option Z) (kw : GenerateKwargs) : GenerateKwargs :=
  {| max_length := max_length kw;
     max_new_tokens := max_new_tokens kw;
     do_sample := do_sample kw;
     top_k := v;
     num_return_sequences := num_return_sequences kw;
     eos_token_id := eos_token_id kw |}.

(** Greedy decoding does not consult [top_k]. *)
Definition GreedyIgnoresTopK (L : Library) : Prop :=
  forall p prompt kw v1 v2 w,
    do_sample kw = Some false ->
    pipeline_call L p prompt (set_top_k v1 kw) w =
    pipeline_call L p prompt (set_top_k v2 kw) w.

(** A tokenizer called on one string returns one row. *)
Definition TokenizerOneRowPerText (L : Library) : Prop :=
  forall t txt rt ast w enc w',
    tokenizer_call L t txt rt ast w = (Returned enc, w') ->
    List.length (input_ids enc) = 1%nat.

(** [model.generate] returns [num_return_sequences] rows per input row,
    when that is a positive number. *)
Definition GenerateHonoursCount (L : Library) : Prop :=
  forall m enc kw w ids w',
    (1 <= effective_num_return_sequences kw)%Z ->
    model_generate L m enc kw w = (Returned ids, w') ->
    Z.of_nat (List.length ids) =
    (Z.of_nat (List.length (input_ids enc)) *
     effective_num_return_sequences kw)%Z.

(** [batch_decode] returns one string per row. *)
Definition DecodeRowwise (L : Library) : Prop :=
  forall t ids w strs w',
    tokenizer_batch_decode L t ids w = (Returned strs, w') ->
    List.length strs = List.length ids.




(** ** A scripted library

    A stand-in for the library, used to run the notebooks on concrete
    inputs.  Its hidden state is a script: the fate of each coming
    generation call.  Tokens are character codes, and a completion is the
    prompt followed by a fixed continuation. *)

Module Scripted.

Inductive Fate : Type := Complete | Interrupt | OutOfMemory.

Definition next_fate (w : list Fate) : Fate * list Fate :=
  match w with
  | [] => (Complete, [])
  | f :: w' => (f, w')
  end.

Definition encode (s : string) : list Z :=
  map (fun a => Z.of_N (N_of_ascii a)) (list_ascii_of_string s).

Definition decode (row : list Z) : string :=
  string_of_list_ascii (map (fun z => ascii_of_N (Z.to_N z)) row).

(** Sampling looks at [top_k]; greedy decoding does not. *)
Definition continuation (kw : GenerateKwargs) : string :=
  match do_sample kw with
  | Some true =>
      match top_k kw with
      | Some _ => " (sampled from the top k)"
      | None => " (sampled)"
      end
  | _ => " (greedy)"
  end.

Definition run_pipeline (p : unit) (prompt : string) (kw : GenerateKwargs)
  (w : list Fate) : Outcome (list GeneratedDict) * list Fate :=
  match next_fate w with
  | (Interrupt, w') => (Raised KeyboardInterrupt, w')
  | (OutOfMemory, w') => (Raised (LibraryError "OutOfMemoryError"), w')
  | (Complete, w') =>
      if (1 <=? effective_num_return_sequences kw)%Z
      then (Returned
              (repeat {| generated_text := prompt ++ continuation kw |}
                 (Z.to_nat (effective_num_return_sequences kw))), w')
      else (Raised (LibraryError "ValueError"), w')
  end.

Definition run_tokenizer (t : Tokenizer) (txt rt : string) (ast : bool)
  (w : list Fate) : Outcome BatchEncoding * list Fate :=
  (Returned {| input_ids := [encode txt];
               attention_mask := [map (fun _ => 1%Z) (encode txt)] |}, w).

Definition run_generate (m : unit) (enc : BatchEncoding)
  (kw : GenerateKwargs) (w : list Fate)
  : Outcome (list (list Z)) * list Fate :=
  match next_fate w with
  | (Interrupt, w') => (Raised KeyboardInterrupt, w')
  | (OutOfMemory, w') => (Raised (LibraryError "OutOfMemoryError"), w')
  | (Complete, w') =>
      if (1 <=? effective_num_return_sequences kw)%Z
      then (Returned
              (flat_map
                 (fun row =>
                    repeat (row ++ encode (continuation kw))%list
                      (Z.to_nat (effective_num_return_sequences kw)))
                 (input_ids enc)), w')
      else (Raised (LibraryError "ValueError"), w')
  end.

Definition run_batch_decode (t : Tokenizer) (ids : list (list Z))
  (w : list Fate) : Outcome (list string) * list Fate :=
  (Returned (map decode ids), w).

Definition library : Library :=
  {| World := list Fate;
     PipelineObj := unit;
     ModelObj := unit;
     AutoTokenizer_from_pretrained := fun name w =>
       (Returned {| tok_name := name;
                    tok_bos_token_id := Some 1%Z;
                    tok_eos_token_id := Some 2%Z |}, w);
     transformers_pipeline := fun _ _ _ _ _ _ w => (Returned tt, w);
     pipeline_call := run_pipeline;
     BitsAndBytesConfig_init := fun cfg w => (Returned cfg, w);
     AutoModelForCausalLM_from_pretrained := fun _ _ _ _ w =>
       (Returned tt, w);
     tokenizer_call := run_tokenizer;
     model_generate := run_generate;
     tokenizer_batch_decode := run_batch_decode |}.

(** The Falcon kernel after its loading cell, with a script ahead. *)
Definition falcon_kernel (script : list Fate)
  : Kernel library (Falcon.NS library) :=
  snd (Falcon.load_cell (fresh_kernel library (Falcon.empty_ns library) script)).

Definition falcon_tokenizer : Tokenizer :=
  {| tok_name := "tiiuae/falcon-7b";
     tok_bos_token_id := Some 1%Z;
     tok_eos_token_id := Some 2%Z |}.

(** The Mistral kernel after every cell before the generation cell. *)
Definition mistral_kernel (script : list Fate)
  : Kernel library (Mistral.NS library) :=
  snd (run_cells
         [Mistral.model_name_cell; Mistral.bnb_config_cell;
          Mistral.model_cell; Mistral.tokenizer_cell]
         (fresh_kernel library (Mistral.empty_ns library) script)).

Definition mistral_tokenizer : Tokenizer :=
  {| tok_name := "filipealmeida/Mistral-7B-Instruct-v0.1-sharded";
     tok_bos_token_id := Some 1%Z;
     tok_eos_token_id := Some 2%Z |}.

(** A request with the empty prompt and the notebook's other values. *)
Definition empty_prompt_request : Falcon.GenerationRequest :=
  {| Falcon.req_prompt := "";
     Falcon.req_max_length := Some 5000%Z;
     Falcon.req_do_sample := true;
     Falcon.req_top_k := Some 10%Z;
     Falcon.req_num_return_sequences := 1%Z |}.

(** The notebook's profile with another quantisation tag. *)
Definition profile_with_tag (tag : string) : BitsAndBytesConfig :=
  {| load_in_4bit := true;
     bnb_4bit_use_double_quant := true;
     bnb_4bit_quant_type := tag;
     bnb_4bit_compute_dtype := bfloat16 |}.

(** A greedy request that still carries [top_k]. *)
Definition greedy_request (k : option Z) : Falcon.GenerationRequest :=
  {| Falcon.req_prompt := "who invented computers";
     Falcon.req_max_length := Some 50%Z;
     Falcon.req_do_sample := false;
     Falcon.req_top_k := k;
     Falcon.req_num_return_sequences := 1%Z |}.

(** A request for three sampled completions. *)
Definition three_request : Falcon.GenerationRequest :=
  {| Falcon.req_prompt := "who invented computers";
     Falcon.req_max_length := Some 5000%Z;
     Falcon.req_do_sample := true;
     Falcon.req_top_k := Some 10%Z;
     Falcon.req_num_return_sequences := 3%Z |}.

End Scripted.

(** ** A library with switchable faults

    The scripted library again, with the failures the loading cells can
    meet: a tokenizer or a pipeline that does not load, a configuration
    the constructor refuses, and a decoder that returns the rows it is
    told to. *)

Module Faulty.

Record Faults : Type := {
  tokenizer_load_raises : bool;
  pipeline_build_raises : bool;
  config_raises : bool;
  decoded_rows : option (list string)
}.

Definition none : Faults :=
  {| tokenizer_load_raises := false;
     pipeline_build_raises := false;
     config_raises := false;
     decoded_rows := None |}.

Definition library (f : Faults) : Library :=
  {| World := list Scripted.Fate;
     PipelineObj := unit;
     ModelObj := unit;
     AutoTokenizer_from_pretrained := fun name w =>
       if tokenizer_load_raises f
       then (Raised (LibraryError "OSError"), w)
       else (Returned {| tok_name := name;
                         tok_bos_token_id := None;
                         tok_eos_token_id := Some 2%Z |}, w);
     transformers_pipeline := fun _ _ _ _ _ _ w =>
       if pipeline_build_raises f
       then (Raised (LibraryError "OutOfMemoryError"), w)
       else (Returned tt, w);
     pipeline_call := Scripted.run_pipeline;
     BitsAndBytesConfig_init := fun cfg w =>
       if config_raises f
       then (Raised (LibraryError "ValueError"), w)
       else (Returned cfg, w);
     AutoModelForCausalLM_from_pretrained := fun _ _ _ _ w =>
       (Returned tt, w);
     tokenizer_call := Scripted.run_tokenizer;
     model_generate := Scripted.run_generate;
     tokenizer_batch_decode := fun t ids w =>
       match decoded_rows f with
       | Some rows => (Returned rows, w)
       | None => Scripted.run_batch_decode t ids w
       end |}.

Definition falcon_fresh (f : Faults)
  : Kernel (library f) (Falcon.NS (library f)) :=
  fresh_kernel (library f) (Falcon.empty_ns (library f)) [].

Definition mistral_fresh (f : Faults)
  : Kernel (library f) (Mistral.NS (library f)) :=
  fresh_kernel (library f) (Mistral.empty_ns (library f)) [].

(** The Mistral kernel after every cell before the generation cell. *)
Definition mistral_kernel (f : Faults)
  : Kernel (library f) (Mistral.NS (library f)) :=
  snd (run_cells
         [Mistral.model_name_cell; Mistral.bnb_config_cell;
          Mistral.model_cell; Mistral.tokenizer_cell]
         (mistral_fresh f)).

Definition no_tokenizer : Faults :=
  {| tokenizer_load_raises := true;
     pipeline_build_raises := false;
     config_raises := false;
     decoded_rows := None |}.

Definition no_pipeline : Faults :=
  {| tokenizer_load_raises := false;
     pipeline_build_raises := true;
     config_raises := false;
     decoded_rows := None |}.

Definition no_config : Faults :=
  {| tokenizer_load_raises := false;
     pipeline_build_raises := false;
     config_raises := true;
     decoded_rows := None |}.

Definition decodes_to (rows : list string) : Faults :=
  {| tokenizer_load_raises := false;
     pipeline_build_raises := false;
     config_raises := false;
     decoded_rows := Some rows |}.

End Faulty.

(** ** A library that clamps the count

    The scripted library, except that its pipeline never refuses a
    count: asked for fewer than one sequence it returns one. *)

Module Clamping.

Definition run_pipeline (p : unit) (prompt : string) (kw : GenerateKwargs)
  (w : list Scripted.Fate) : Outcome (list GeneratedDict) * list Scripted.Fate :=
  (Returned
     (repeat {| generated_text := prompt ++ Scripted.continuation kw |}
        (Z.to_nat (Z.max 1 (effective_num_return_sequences kw)))), w).

Definition library : Library :=
  {| World := list Scripted.Fate;
     PipelineObj := unit;
     ModelObj := unit;
     AutoTokenizer_from_pretrained := fun name w =>
       (Returned {| tok_name := name;
                    tok_bos_token_id := Some 1%Z;
                    tok_eos_token_id := Some 2%Z |}, w);
     transformers_pipeline := fun _ _ _ _ _ _ w => (Returned tt, w);
     pipeline_call := run_pipeline;
     BitsAndBytesConfig_init := fun cfg w => (Returned cfg, w);
     AutoModelForCausalLM_from_pretrained := fun _ _ _ _ w =>
       (Returned tt, w);
     tokenizer_call := Scripted.run_tokenizer;
     model_generate := Scripted.run_generate;
     tokenizer_batch_decode := Scripted.run_batch_decode |}.

Definition falcon_kernel : Kernel library (Falcon.NS library) :=
  snd (Falcon.load_cell (fresh_kernel library (Falcon.empty_ns library) [])).

(** A request for no sequence at all. *)
Definition zero_request : Falcon.GenerationRequest :=
  {| Falcon.req_prompt := "who invented computers";
     Falcon.req_max_length := Some 5000%Z;
     Falcon.req_do_sample := true;
     Falcon.req_top_k := Some 10%Z;
     Falcon.req_num_return_sequences := 0%Z |}.

End Clamping.

(** * Facts about the cell monad *)

Local Open Scope list_scope.

(** Unfolding the monad down to pairs and matches. *)
Ltac cell_unfold :=
  unfold bind, ret, raise, Monad_Cell, Exc_Cell, cell_bind, cell_ret,
    cell_raise, lookup, assign, print, extern, index0 in *;
  cbn [ns world stdout calls fst snd] in *.

Lemma kernel_eta (L : Library) (NS : Type) (k : Kernel L NS) :
  {| ns := ns k; world := world k; stdout := stdout k; calls := calls k |} = k.
Proof. destruct k; reflexivity. Qed.

Lemma generation_calls_app (L : Library) (a b : list (Call L)) :
  generation_calls (a ++ b) = generation_calls a + generation_calls b.
Proof.
  unfold generation_calls. rewrite filter_app, length_app. reflexivity.
Qed.



(** * The Falcon notebook *)

Section FalconFacts.
Context {L : Library}.

(** The printing loop never raises: it prints one line per sequence, in
    order, and only rebinds the loop variable. *)
Lemma falcon_print_loop (seqs : list GeneratedDict)
  (k : Kernel L (Falcon.NS L)) :
  for_each seqs Falcon.print_body k =
  (Returned tt,
   {| ns := fold_left (fun n s => Falcon.set_seq s n) seqs (ns k);
      world := world k;
      stdout := stdout k ++ map Falcon.result_line seqs;
      calls := calls k |}).
Proof.
  revert k. induction seqs as [|s seqs IH]; intros k.
  - simpl. rewrite app_nil_r, kernel_eta. reflexivity.
  - simpl for_each. unfold Falcon.print_body at 1, Falcon.result_line.
    cell_unfold.
    rewrite IH. cbn [ns world stdout calls]. simpl fold_left.
    rewrite <- app_assoc. reflexivity.
Qed.

Lemma falcon_loop_keeps_sequences (seqs : list GeneratedDict)
  (n : Falcon.NS L) :
  Falcon.sequences (fold_left (fun n s => Falcon.set_seq s n) seqs n) =
  Falcon.sequences n.
Proof.
  revert n. induction seqs as [|s seqs IH]; intros n; simpl;
    [reflexivity | rewrite IH; reflexivity].
Qed.

Lemma falcon_loop_keeps_globals (seqs : list GeneratedDict)
  (n : Falcon.NS L) :
  Falcon.pipeline (fold_left (fun n s => Falcon.set_seq s n) seqs n) =
  Falcon.pipeline n /\
  Falcon.tokenizer (fold_left (fun n s => Falcon.set_seq s n) seqs n) =
  Falcon.tokenizer n.
Proof.
  revert n. induction seqs as [|s seqs IH]; intros n; simpl;
    [split; reflexivity | destruct (IH (Falcon.set_seq s n)) as [-> ->];
                          split; reflexivity].
Qed.

(** What one run of the generation cell does on a kernel where the
    loading cell has run: one call into the pipeline, and then either
    the exception of that call or every sequence printed. *)
Lemma falcon_generate_run (r : Falcon.GenerationRequest)
  (k : Kernel L (Falcon.NS L)) (p : PipelineObj L) (tok : Tokenizer) :
  Falcon.loaded k p tok ->
  Falcon.generate r k =
  match pipeline_call L p (Falcon.req_prompt r) (Falcon.kwargs_of r tok)
          (world k) with
  | (Returned seqs, w') =>
      (Returned tt,
       {| ns := fold_left (fun n s => Falcon.set_seq s n) seqs
                  (Falcon.set_sequences seqs
                     (Falcon.set_prompt (Falcon.req_prompt r) (ns k)));
          world := w';
          stdout := stdout k ++ map Falcon.result_line seqs;
          calls := calls k ++
                   [PipelineCall p (Falcon.req_prompt r)
                      (Falcon.kwargs_of r tok)] |})
  | (Raised e, w') =>
      (Raised e,
       {| ns := Falcon.set_prompt (Falcon.req_prompt r) (ns k);
          world := w';
          stdout := stdout k;
          calls := calls k ++
                   [PipelineCall p (Falcon.req_prompt r)
                      (Falcon.kwargs_of r tok)] |})
  end.
Proof.
  intros [Hp Ht]. unfold Falcon.generate. cell_unfold.
  change (Falcon.pipeline (Falcon.set_prompt (Falcon.req_prompt r) (ns k)))
    with (Falcon.pipeline (ns k)).
  rewrite Hp. cbn [ns world stdout calls].
  change (Falcon.prompt (Falcon.set_prompt (Falcon.req_prompt r) (ns k)))
    with (Some (Falcon.req_prompt r)).
  cbn [ns world stdout calls].
  change (Falcon.tokenizer (Falcon.set_prompt (Falcon.req_prompt r) (ns k)))
    with (Falcon.tokenizer (ns k)).
  rewrite Ht. cbn [ns world stdout calls].
  destruct (pipeline_call L p (Falcon.req_prompt r)
              (Falcon.kwargs_of r tok) (world k)) as [[seqs|e] w'];
    [|reflexivity].
  rewrite falcon_print_loop. reflexivity.
Qed.

(** The log and the outcome of one run. *)
Lemma falcon_generate_dispatch (r : Falcon.GenerationRequest)
  (k : Kernel L (Falcon.NS L)) (p : PipelineObj L) (tok : Tokenizer) :
  Falcon.loaded k p tok ->
  calls (snd (Falcon.generate r k)) =
  calls k ++
  [PipelineCall p (Falcon.req_prompt r) (Falcon.kwargs_of r tok)] /\
  fst (Falcon.generate r k) =
  discard (fst (pipeline_call L p (Falcon.req_prompt r)
                  (Falcon.kwargs_of r tok) (world k))).
Proof.
  intros Hl. rewrite (falcon_generate_run r Hl).
  destruct (pipeline_call L p (Falcon.req_prompt r)
              (Falcon.kwargs_of r tok) (world k)) as [[seqs|e] w'];
    split; reflexivity.
Qed.

(** A run that returns started from a loaded kernel: otherwise the cell
    ends in a [NameError] before it reaches the pipeline. *)
Lemma falcon_returned_loaded (r : Falcon.GenerationRequest)
  (k k' : Kernel L (Falcon.NS L)) :
  Falcon.generate r k = (Returned tt, k') ->
  exists p tok, Falcon.loaded k p tok.
Proof.
  unfold Falcon.generate, Falcon.loaded. cell_unfold.
  change (Falcon.pipeline (Falcon.set_prompt (Falcon.req_prompt r) (ns k)))
    with (Falcon.pipeline (ns k)).
  destruct (Falcon.pipeline (ns k)) as [p|]; [|discriminate].
  cbn [ns world stdout calls].
  change (Falcon.prompt (Falcon.set_prompt (Falcon.req_prompt r) (ns k)))
    with (Some (Falcon.req_prompt r)).
  cbn [ns world stdout calls].
  change (Falcon.tokenizer (Falcon.set_prompt (Falcon.req_prompt r) (ns k)))
    with (Falcon.tokenizer (ns k)).
  destruct (Falcon.tokenizer (ns k)) as [tok|]; [|discriminate].
  intros _. exists p, tok. split; reflexivity.
Qed.

End FalconFacts.

(** * The Mistral notebook *)

Section MistralFacts.
Context {L : Library}.

(** What one run of the generation cell does on a kernel where the model
    and the tokenizer are bound: the tokenizer, the model and the decoder
    are called in turn, each at most once, and the first exception ends
    the cell. *)
Lemma mistral_generate_run (t : string) (k : Kernel L (Mistral.NS L))
  (m : ModelObj L) (tok : Tokenizer) :
  Mistral.loaded k m tok ->
  Mistral.generate t k =
  match tokenizer_call L tok t "pt" false (world k) with
  | (Raised e, w1) =>
      (Raised e,
       {| ns := Mistral.set_text t (ns k);
          world := w1;
          stdout := stdout k;
          calls := calls k ++ [TokenizerCall tok t] |})
  | (Returned enc, w1) =>
      let n1 := Mistral.set_model_input enc
                  (Mistral.set_encoded enc (Mistral.set_text t (ns k))) in
      let c1 := calls k ++ [TokenizerCall tok t] in
      match model_generate L m enc Mistral.generate_kwargs w1 with
      | (Raised e, w2) =>
          (Raised e,
           {| ns := n1; world := w2; stdout := stdout k;
              calls := c1 ++ [ModelGenerate m enc Mistral.generate_kwargs]
           |})
      | (Returned ids, w2) =>
          let n2 := Mistral.set_generated_ids ids n1 in
          let c2 := c1 ++ [ModelGenerate m enc Mistral.generate_kwargs] in
          match tokenizer_batch_decode L tok ids w2 with
          | (Raised e, w3) =>
              (Raised e,
               {| ns := n2; world := w3; stdout := stdout k;
                  calls := c2 ++ [BatchDecode tok ids] |})
          | (Returned strs, w3) =>
              match strs with
              | [] =>
                  (Raised IndexError,
                   {| ns := Mistral.set_decoded strs n2; world := w3;
                      stdout := stdout k;
                      calls := c2 ++ [BatchDecode tok ids] |})
              | first :: _ =>
                  (Returned tt,
                   {| ns := Mistral.set_decoded strs n2; world := w3;
                      stdout := stdout k ++ [first];
                      calls := c2 ++ [BatchDecode tok ids] |})
              end
          end
      end
  end.
Proof.
  intros [Hm Ht]. destruct k as [n w out cs]. destruct n.
  cbn in Hm, Ht. subst. unfold Mistral.generate. cell_unfold. cbn.
  destruct (tokenizer_call L tok t "pt" false w) as [[enc|e] w1];
    [|reflexivity].
  cbn.
  destruct (model_generate L m enc Mistral.generate_kwargs w1)
    as [[ids|e] w2]; [|reflexivity].
  cbn.
  destruct (tokenizer_batch_decode L tok ids w2) as [[strs|e] w3];
    [|reflexivity].
  cbn. destruct strs as [|first rest]; reflexivity.
Qed.

(** The generation calls of one run: one once the tokenizer has
    returned, none if it raised. *)
Lemma mistral_generation_calls (t : string) (k : Kernel L (Mistral.NS L))
  (m : ModelObj L) (tok : Tokenizer) :
  Mistral.loaded k m tok ->
  generation_calls (calls (snd (Mistral.generate t k))) =
  generation_calls (calls k) +
  match tokenizer_call L tok t "pt" false (world k) with
  | (Returned _, _) => 1
  | (Raised _, _) => 0
  end.
Proof.
  intros Hl. rewrite (mistral_generate_run t Hl).
  destruct (tokenizer_call L tok t "pt" false (world k))
    as [[enc|e] w1]; cbv zeta.
  - destruct (model_generate L m enc Mistral.generate_kwargs w1)
      as [[ids|e] w2].
    + destruct (tokenizer_batch_decode L tok ids w2)
        as [[[|first rest]|e] w3];
        cbn [snd calls]; rewrite !generation_calls_app; cbn; lia.
    + cbn [snd calls]. rewrite !generation_calls_app. cbn. lia.
  - cbn [snd calls]. rewrite generation_calls_app. cbn. lia.
Qed.

(** The generation call of one run, with what it carries. *)
Lemma mistral_generation_dispatch (t : string)
  (k : Kernel L (Mistral.NS L)) (m : ModelObj L) (tok : Tokenizer) :
  Mistral.loaded k m tok ->
  filter is_generation_call (calls (snd (Mistral.generate t k))) =
  filter is_generation_call (calls k) ++
  match tokenizer_call L tok t "pt" false (world k) with
  | (Returned enc, _) => [ModelGenerate m enc Mistral.generate_kwargs]
  | (Raised _, _) => []
  end.
Proof.
  intros Hl. rewrite (mistral_generate_run t Hl).
  destruct (tokenizer_call L tok t "pt" false (world k))
    as [[enc|e] w1]; cbv zeta.
  - destruct (model_generate L m enc Mistral.generate_kwargs w1)
      as [[ids|e] w2].
    + destruct (tokenizer_batch_decode L tok ids w2)
        as [[[|first rest]|e] w3];
        cbn [snd calls]; rewrite !filter_app; cbn;
        rewrite ?app_nil_r; reflexivity.
    + cbn [snd calls]. rewrite !filter_app. cbn.
      rewrite ?app_nil_r. reflexivity.
  - cbn [snd calls]. rewrite filter_app. reflexivity.
Qed.

Lemma mistral_returned_loaded (t : string)
  (k k' : Kernel L (Mistral.NS L)) :
  Mistral.generate t k = (Returned tt, k') ->
  exists m tok, Mistral.loaded k m tok.
Proof.
  destruct k as [n w out cs]. destruct n as [a b m tok c d e f g h].
  unfold Mistral.generate, Mistral.loaded. cell_unfold. cbn.
  destruct tok as [tok|]; [|discriminate]. cbn.
  destruct (tokenizer_call L tok t "pt" false w) as [[enc|x] w1];
    [|discriminate].
  cbn. destruct m as [m|]; [|discriminate].
  intros _. exists m, tok. split; reflexivity.
Qed.

(** The generation cell never reads [stop_token_ids]: rebinding it
    before the run changes neither the outcome nor anything else in the
    kernel the run leaves. *)
Lemma mistral_generate_stop_independent (t : string)
  (k : Kernel L (Mistral.NS L)) (v : option (list Z)) :
  Mistral.generate t (Mistral.with_stop_token_ids v k) =
  (fst (Mistral.generate t k),
   Mistral.with_stop_token_ids v (snd (Mistral.generate t k))).
Proof.
  destruct k as [n w out cs]. destruct n as [a b m tok c d e f g h].
  unfold Mistral.generate, Mistral.with_stop_token_ids. cell_unfold. cbn.
  destruct tok as [tok|]; [|reflexivity]. cbn.
  destruct (tokenizer_call L tok t "pt" false w) as [[enc|x] w1];
    [|reflexivity].
  cbn. destruct m as [m|]; [|reflexivity]. cbn.
  destruct (model_generate L m enc Mistral.generate_kwargs w1)
    as [[ids|x] w2]; [|reflexivity].
  cbn.
  destruct (tokenizer_batch_decode L tok ids w2) as [[strs|x] w3];
    [|reflexivity].
  cbn. destruct strs as [|first rest]; reflexivity.
Qed.

(** The tokenizer cell writes its stop list into [stop_token_ids] and
    nowhere else. *)
Lemma mistral_tokenizer_cell_stop (s1 s2 : list Z)
  (k : Kernel L (Mistral.NS L)) :
  fst (Mistral.tokenizer_cell_with s2 k) =
  fst (Mistral.tokenizer_cell_with s1 k) /\
  exists v,
    snd (Mistral.tokenizer_cell_with s2 k) =
    Mistral.with_stop_token_ids v (snd (Mistral.tokenizer_cell_with s1 k)).
Proof.
  destruct k as [n w out cs]. destruct n as [a b m tok c d e f g h].
  unfold Mistral.tokenizer_cell_with, Mistral.with_stop_token_ids.
  cell_unfold. cbn.
  destruct a as [name|].
  - cbn. destruct (AutoTokenizer_from_pretrained L name w)
      as [[tok'|x] w1]; cbn.
    + split; [reflexivity|]. exists (Some s2). reflexivity.
    + split; [reflexivity|]. exists c. reflexivity.
  - split; [reflexivity|]. exists c. reflexivity.
Qed.

Lemma mistral_with_stop_twice (v v' : option (list Z))
  (k : Kernel L (Mistral.NS L)) :
  Mistral.with_stop_token_ids v' (Mistral.with_stop_token_ids v k) =
  Mistral.with_stop_token_ids v' k.
Proof. reflexivity. Qed.

End MistralFacts.

(** * The scripted library keeps the library's promises *)



Lemma scripted_pipeline_count : PipelineHonoursCount Scripted.library.
Proof.
  intros p prompt kw w seqs w' _. cbn. unfold Scripted.run_pipeline.
  destruct (Scripted.next_fate w) as [[| |] w1]; try discriminate.
  destruct (Z.leb_spec 1 (effective_num_return_sequences kw)) as [Hle|];
    [|discriminate].
  intros H. injection H as <- _. rewrite repeat_length. lia.
Qed.


Lemma scripted_greedy_ignores_top_k : GreedyIgnoresTopK Scripted.library.
Proof.
  intros p prompt kw v1 v2 w Hgreedy. cbn.
  unfold Scripted.run_pipeline, Scripted.continuation,
    effective_num_return_sequences, set_top_k.
  cbn. rewrite Hgreedy. reflexivity.
Qed.

Lemma scripted_one_row : TokenizerOneRowPerText Scripted.library.
Proof.
  intros t txt rt ast w enc w'. cbn. unfold Scripted.run_tokenizer.
  intros H. injection H as <- _. reflexivity.
Qed.

Lemma flat_map_repeat_length (A : Type) (f : list A -> list A) (n : nat)
  (rows : list (list A)) :
  List.length (flat_map (fun row => repeat (f row) n) rows) =
  List.length rows * n.
Proof.
  induction rows as [|row rows IH]; simpl; [reflexivity|].
  rewrite length_app, repeat_length, IH. reflexivity.
Qed.

Lemma scripted_generate_count : GenerateHonoursCount Scripted.library.
Proof.
  intros m enc kw w ids w' _. cbn. unfold Scripted.run_generate.
  destruct (Scripted.next_fate w) as [[| |] w1]; try discriminate.
  destruct (Z.leb_spec 1 (effective_num_return_sequences kw)) as [Hle|];
    [|discriminate].
  intros H. injection H as <- _.
  rewrite (flat_map_repeat_length
             (fun row => row ++ Scripted.encode (Scripted.continuation kw))).
  rewrite Nat2Z.inj_mul, Z2Nat.id by lia. reflexivity.
Qed.

Lemma scripted_decode_rowwise : DecodeRowwise Scripted.library.
Proof.
  intros t ids w strs w'. cbn. unfold Scripted.run_batch_decode.
  intros H. injection H as <- _. apply length_map.
Qed.



Lemma scripted_falcon_loaded (script : list Scripted.Fate) :
  Falcon.loaded (Scripted.falcon_kernel script) tt Scripted.falcon_tokenizer.
Proof. split; reflexivity. Qed.


(** The clamping library keeps the count for positive numbers, and
    returns one sequence when asked for none. *)
Lemma clamping_pipeline_count : PipelineHonoursCount Clamping.library.
Proof.
  intros p prompt kw w seqs w' Hpos. cbn. unfold Clamping.run_pipeline.
  intros H. injection H as <- _. rewrite repeat_length. lia.
Qed.

Lemma clamping_returns_one_for_zero :
  Falcon.sequences
    (ns (snd (Falcon.generate Clamping.zero_request Clamping.falcon_kernel)))
  = Some [{| generated_text :=
               "who invented computers (sampled from the top k)" |}].
Proof. reflexivity. Qed.

(** * The claims *)

(** ** Number of completions *)

(** C1.  A generation that succeeds yields exactly as many completions as
    the request asks for, for every positive number asked.  The count is
    the library's to keep, and is asked of it for positive numbers only
    ([PipelineHonoursCount] for the pipeline; one row per text, one row
    per requested sequence and one string per row for the Mistral chain);
    the cells bind what the library returns, unchanged.  The Falcon cell
    passes [num_return_sequences] on as written; the Mistral cell passes
    none, so its count is the default, one. *)
Theorem generate_returns_num_return_sequences (L : Library) :
  PipelineHonoursCount L ->
  TokenizerOneRowPerText L ->
  GenerateHonoursCount L ->
  DecodeRowwise L ->
  (forall (r : Falcon.GenerationRequest) (k k' : Kernel L (Falcon.NS L)),
      (1 <= Falcon.req_num_return_sequences r)%Z ->
      Falcon.generate r k = (Returned tt, k') ->
      exists p tok seqs w',
        Falcon.loaded k p tok /\
        pipeline_call L p (Falcon.req_prompt r) (Falcon.kwargs_of r tok)
          (world k) = (Returned seqs, w') /\
        Falcon.sequences (ns k') = Some seqs /\
        Z.of_nat (List.length seqs) = Falcon.req_num_return_sequences r) /\
  (forall (t : string) (k k' : Kernel L (Mistral.NS L)),
      Mistral.generate t k = (Returned tt, k') ->
      exists m tok enc w1 ids w2 strs w3,
        Mistral.loaded k m tok /\
        tokenizer_call L tok t "pt" false (world k) = (Returned enc, w1) /\
        model_generate L m enc Mistral.generate_kwargs w1
        = (Returned ids, w2) /\
        tokenizer_batch_decode L tok ids w2 = (Returned strs, w3) /\
        Mistral.generated_ids (ns k') = Some ids /\
        List.length ids = 1 /\
        Mistral.decoded (ns k') = Some strs /\
        List.length strs = 1).
Proof.
  intros Hpipe Hrow Hgen Hdec. split.
  - intros r k k' Hpos Hrun.
    destruct (falcon_returned_loaded r k Hrun) as [p [tok Hl]].
    rewrite (falcon_generate_run r Hl) in Hrun.
    destruct (pipeline_call L p (Falcon.req_prompt r)
                (Falcon.kwargs_of r tok) (world k)) as [[seqs|e] w'] eqn:Hcall;
      [|discriminate].
    injection Hrun as <-. exists p, tok, seqs, w'. cbn [ns].
    split; [exact Hl|]. split; [exact Hcall|]. split.
    + rewrite falcon_loop_keeps_sequences. reflexivity.
    + exact (Hpipe p (Falcon.req_prompt r) (Falcon.kwargs_of r tok)
               (world k) seqs w' Hpos Hcall).
  - intros t k k' Hrun.
    destruct (mistral_returned_loaded t k Hrun) as [m [tok Hl]].
    rewrite (mistral_generate_run t Hl) in Hrun.
    destruct (tokenizer_call L tok t "pt" false (world k))
      as [[enc|e] w1] eqn:Htok; [|discriminate].
    cbv zeta in Hrun.
    destruct (model_generate L m enc Mistral.generate_kwargs w1)
      as [[ids|e] w2] eqn:Hids; [|discriminate].
    destruct (tokenizer_batch_decode L tok ids w2)
      as [[strs|e] w3] eqn:Hstrs; [|discriminate].
    destruct strs as [|first rest]; [discriminate|].
    injection Hrun as <-.
    exists m, tok, enc, w1, ids, w2, (first :: rest), w3. cbn [ns].
    pose proof (Hrow _ _ _ _ _ _ _ Htok) as Hone.
    assert (Hdefault : (1 <= effective_num_return_sequences
                               Mistral.generate_kwargs)%Z)
      by (cbn; lia).
    pose proof (Hgen _ _ _ _ _ _ Hdefault Hids) as Hcount.
    pose proof (Hdec _ _ _ _ _ Hstrs) as Hrows.
    rewrite Hone in Hcount. cbn in Hcount.
    assert (Hids1 : List.length ids = 1) by lia.
    split; [exact Hl|]. split; [exact Htok|]. split; [exact Hids|].
    split; [exact Hstrs|]. split; [reflexivity|]. split; [exact Hids1|].
    split; [reflexivity|]. rewrite Hrows. exact Hids1.
Qed.

Lemma generate_returns_num_return_sequences_witness :
  (exists seqs,
      Falcon.sequences
        (ns (snd (Falcon.generate Scripted.three_request
                    (Scripted.falcon_kernel [])))) = Some seqs /\
      Z.of_nat (List.length seqs) = 3%Z) /\
  (exists strs,
      Mistral.decoded
        (ns (snd (Mistral.generation_cell (Scripted.mistral_kernel []))))
      = Some strs /\
      List.length strs = 1) /\
  (exists seqs,
      Falcon.sequences
        (ns (snd (Falcon.generate Scripted.three_request
                    Clamping.falcon_kernel))) = Some seqs /\
      Z.of_nat (List.length seqs) = 3%Z).
Proof.
  destruct (generate_returns_num_return_sequences
              scripted_pipeline_count scripted_one_row
              scripted_generate_count scripted_decode_rowwise)
    as [Hfalcon Hmistral].
  split; [|split].
  - destruct (Hfalcon Scripted.three_request (Scripted.falcon_kernel [])
                (snd (Falcon.generate Scripted.three_request
                        (Scripted.falcon_kernel [])))
                ltac:(cbn; lia) ltac:(vm_compute; reflexivity))
      as [p [tok [seqs [w' [_ [_ [Hseqs Hcount]]]]]]].
    exists seqs. split; assumption.
  - destruct (Hmistral "[INST] ~Add your instrunctions here~ [/INST]"%string
                (Scripted.mistral_kernel [])
                (snd (Mistral.generation_cell (Scripted.mistral_kernel [])))
                ltac:(vm_compute; reflexivity))
      as [m [tok [enc [w1 [ids [w2 [strs [w3 H]]]]]]]].
    exists strs. split; apply H.
  - destruct (proj1 (@generate_returns_num_return_sequences Clamping.library
                       clamping_pipeline_count scripted_one_row
                       scripted_generate_count scripted_decode_rowwise)
                Scripted.three_request Clamping.falcon_kernel
                (snd (Falcon.generate Scripted.three_request
                        Clamping.falcon_kernel))
                ltac:(cbn; lia) ltac:(vm_compute; reflexivity))
      as [p [tok [seqs [w' [_ [_ [Hseqs Hcount]]]]]]].
    exists seqs. split; assumption.
Defined.

(** ** Continuation *)



(** ** No validation before dispatch *)

(** C3 does not hold as stated.  With the empty prompt the cell neither
    stops short of the pipeline nor raises on its own: on the scripted
    library the call is made and the cell returns. *)
Lemma empty_prompt_reaches_the_pipeline :
  ~ (forall (L : Library) (r : Falcon.GenerationRequest)
       (k : Kernel L (Falcon.NS L)) (p : PipelineObj L) (tok : Tokenizer),
        Falcon.loaded k p tok ->
        Falcon.req_prompt r = ""%string ->
        (exists e, fst (Falcon.generate r k) = Raised e) /\
        generation_calls (calls (snd (Falcon.generate r k))) =
        generation_calls (calls k)).
Proof.
  intros H.
  destruct (H Scripted.library Scripted.empty_prompt_request
              (Scripted.falcon_kernel []) tt Scripted.falcon_tokenizer
              (scripted_falcon_loaded []) eq_refl) as [_ Hcalls].
  vm_compute in Hcalls. discriminate Hcalls.
Qed.

(** C3, amended.  The generation cell does not look at the prompt: for
    every prompt, the empty one included, it calls the pipeline once with
    that prompt, and its outcome is the outcome of that call. *)
Theorem every_prompt_is_dispatched (L : Library)
  (r : Falcon.GenerationRequest) (k : Kernel L (Falcon.NS L))
  (p : PipelineObj L) (tok : Tokenizer) :
  Falcon.loaded k p tok ->
  calls (snd (Falcon.generate r k)) =
  calls k ++ [PipelineCall p (Falcon.req_prompt r) (Falcon.kwargs_of r tok)]
  /\
  fst (Falcon.generate r k) =
  discard (fst (pipeline_call L p (Falcon.req_prompt r)
                  (Falcon.kwargs_of r tok) (world k))).
Proof.
  intros Hl. exact (falcon_generate_dispatch r Hl).
Qed.

Lemma every_prompt_is_dispatched_witness :
  calls (snd (Falcon.generate Scripted.empty_prompt_request
                (Scripted.falcon_kernel []))) =
  calls (Scripted.falcon_kernel []) ++
  [@PipelineCall Scripted.library tt ""%string
     (Falcon.kwargs_of Scripted.empty_prompt_request
        Scripted.falcon_tokenizer)]
  /\
  fst (Falcon.generate Scripted.empty_prompt_request
         (Scripted.falcon_kernel [])) =
  discard (fst (pipeline_call Scripted.library tt ""%string
                  (Falcon.kwargs_of Scripted.empty_prompt_request
                     Scripted.falcon_tokenizer)
                  (world (Scripted.falcon_kernel [])))).
Proof.
  apply (@every_prompt_is_dispatched Scripted.library
           Scripted.empty_prompt_request (Scripted.falcon_kernel [])
           tt Scripted.falcon_tokenizer).
  split; reflexivity.
Defined.

(** ** No validation of the quantisation profile *)

(** C4 does not hold as stated.  Whatever tags count as recognised, as
    long as one tag does not, the configuration cell does not reject a
    profile for its tag: run after the first cell, it has no check of its
    own, and on a library whose constructor accepts what it is given the
    cell returns. *)
Lemma unknown_quant_type_is_not_rejected :
  ~ (exists (recognised : string -> bool) (unknown : string),
        recognised unknown = false /\
        forall (L : Library) (cfg : BitsAndBytesConfig)
               (k : Kernel L (Mistral.NS L)) (name : string),
          Mistral.model_name (ns k) = Some name ->
          recognised (bnb_4bit_quant_type cfg) = false ->
          exists e, fst (Mistral.bnb_config_cell_with cfg k) = Raised e).
Proof.
  intros [recognised [unknown [Hunknown H]]].
  destruct (H Scripted.library (Scripted.profile_with_tag unknown)
              (snd (Mistral.model_name_cell
                      (fresh_kernel Scripted.library
                         (Mistral.empty_ns Scripted.library) [])))
              "filipealmeida/Mistral-7B-Instruct-v0.1-sharded"%string
              eq_refl Hunknown) as [e He].
  cbn in He. discriminate He.
Qed.

(** C4, amended.  The configuration cell checks nothing itself.  Once the
    first cell has run (the imports and [model_name]), it hands the
    profile it is written with to [transformers.BitsAndBytesConfig]
    unchanged, once, and raises exactly when that constructor raises.
    Before the first cell has run it ends in a [NameError] for
    [transformers], with no call made.  A profile has no bit width to get
    wrong, only the flag [load_in_4bit]; the profile of the notebook sets
    it, with the tag ["nf4"]. *)
Theorem quantization_profile_is_forwarded (L : Library)
  (cfg : BitsAndBytesConfig) (k : Kernel L (Mistral.NS L)) :
  (forall name,
      Mistral.model_name (ns k) = Some name ->
      calls (snd (Mistral.bnb_config_cell_with cfg k)) =
      calls k ++ [BuildQuantConfig cfg] /\
      fst (Mistral.bnb_config_cell_with cfg k) =
      discard (fst (BitsAndBytesConfig_init L cfg (world k)))) /\
  (Mistral.model_name (ns k) = None ->
   Mistral.bnb_config_cell_with cfg k =
   (Raised (NameError "transformers"), k)) /\
  load_in_4bit Mistral.notebook_profile = true /\
  bnb_4bit_quant_type Mistral.notebook_profile = "nf4"%string.
Proof.
  destruct k as [n w out cs]. destruct n as [a b m tok c d f g h i].
  cbn [ns world calls Mistral.model_name].
  unfold Mistral.bnb_config_cell_with, Mistral.imported. cell_unfold. cbn.
  split; [|split; [|split; reflexivity]].
  - intros name ->. cbn.
    destruct (BitsAndBytesConfig_init L cfg w) as [[cfg'|e] w'];
      split; reflexivity.
  - intros ->. reflexivity.
Qed.

Lemma quantization_profile_is_forwarded_witness :
  (calls (snd (Mistral.bnb_config_cell_with
                 (Scripted.profile_with_tag "bogus")
                 (snd (Mistral.model_name_cell
                         (Faulty.mistral_fresh Faulty.none))))) =
   [BuildQuantConfig (Scripted.profile_with_tag "bogus")] /\
   fst (Mistral.bnb_config_cell_with
          (Scripted.profile_with_tag "bogus")
          (snd (Mistral.model_name_cell
                  (Faulty.mistral_fresh Faulty.none)))) = Returned tt) /\
  Mistral.bnb_config_cell_with (Scripted.profile_with_tag "bogus")
    (Faulty.mistral_fresh Faulty.none) =
  (Raised (NameError "transformers"), Faulty.mistral_fresh Faulty.none).
Proof.
  split.
  - exact (proj1 (@quantization_profile_is_forwarded
                    (Faulty.library Faulty.none)
                    (Scripted.profile_with_tag "bogus")
                    (snd (Mistral.model_name_cell
                            (Faulty.mistral_fresh Faulty.none))))
             "filipealmeida/Mistral-7B-Instruct-v0.1-sharded"%string
             eq_refl).
  - exact (proj1 (proj2 (@quantization_profile_is_forwarded
                           (Faulty.library Faulty.none)
                           (Scripted.profile_with_tag "bogus")
                           (Faulty.mistral_fresh Faulty.none)))
             eq_refl).
Defined.

(** ** Interruption *)

(** C5 does not hold as stated.  The notebook keeps no record of an
    interruption: after a run that ended in [KeyboardInterrupt], the next
    run calls the pipeline again, and returns if the pipeline does. *)
Lemma interrupted_run_is_followed_by_a_new_run :
  ~ (forall (L : Library) (r1 r2 : Falcon.GenerationRequest)
       (k : Kernel L (Falcon.NS L)) (p : PipelineObj L) (tok : Tokenizer),
        Falcon.loaded k p tok ->
        fst (Falcon.generate r1 k) = Raised KeyboardInterrupt ->
        (exists e,
            fst (Falcon.generate r2 (snd (Falcon.generate r1 k))) = Raised e)
        /\
        generation_calls
          (calls (snd (Falcon.generate r2 (snd (Falcon.generate r1 k))))) =
        generation_calls (calls (snd (Falcon.generate r1 k)))).
Proof.
  intros H.
  destruct (H Scripted.library Falcon.notebook_request Falcon.notebook_request
              (Scripted.falcon_kernel [Scripted.Interrupt]) tt
              Scripted.falcon_tokenizer
              (scripted_falcon_loaded [Scripted.Interrupt]) eq_refl)
    as [_ Hcalls].
  vm_compute in Hcalls. discriminate Hcalls.
Qed.

(** C5, amended.  An exception raised inside the pipeline, a
    [KeyboardInterrupt] included, ends the cell with nothing printed and
    [sequences] not rebound, and the kernel is left ready: whatever the
    outcome of one run, the next run calls the pipeline again, with no
    acknowledgement in between, and its outcome is the outcome of that
    call. *)
Theorem every_run_dispatches_again (L : Library)
  (r1 r2 : Falcon.GenerationRequest) (k : Kernel L (Falcon.NS L))
  (p : PipelineObj L) (tok : Tokenizer) :
  Falcon.loaded k p tok ->
  let first := Falcon.generate r1 k in
  let both := run_cells [Falcon.generate r1; Falcon.generate r2] k in
  Falcon.loaded (snd first) p tok /\
  (forall e, fst first = Raised e ->
             stdout (snd first) = stdout k /\
             Falcon.sequences (ns (snd first)) = Falcon.sequences (ns k)) /\
  calls (snd both) =
  calls k ++
  [PipelineCall p (Falcon.req_prompt r1) (Falcon.kwargs_of r1 tok);
   PipelineCall p (Falcon.req_prompt r2) (Falcon.kwargs_of r2 tok)] /\
  fst both =
  [fst first;
   discard (fst (pipeline_call L p (Falcon.req_prompt r2)
                   (Falcon.kwargs_of r2 tok) (world (snd first))))].
Proof.
  intros Hl first both. subst first both. cbn [run_cells].
  pose proof (falcon_generate_dispatch r1 Hl) as [Hc1 _].
  assert (Hl1 : Falcon.loaded (snd (Falcon.generate r1 k)) p tok).
  { rewrite (falcon_generate_run r1 Hl). destruct Hl as [Hp Ht].
    destruct (pipeline_call L p (Falcon.req_prompt r1)
                (Falcon.kwargs_of r1 tok) (world k)) as [[seqs|e] w'];
      unfold Falcon.loaded; cbn [snd ns].
    - destruct (falcon_loop_keeps_globals seqs
                  (Falcon.set_sequences seqs
                     (Falcon.set_prompt (Falcon.req_prompt r1) (ns k))))
        as [-> ->].
      split; assumption.
    - split; assumption. }
  assert (Hquiet : forall e,
             fst (Falcon.generate r1 k) = Raised e ->
             stdout (snd (Falcon.generate r1 k)) = stdout k /\
             Falcon.sequences (ns (snd (Falcon.generate r1 k))) =
             Falcon.sequences (ns k)).
  { intros e. rewrite (falcon_generate_run r1 Hl).
    destruct (pipeline_call L p (Falcon.req_prompt r1)
                (Falcon.kwargs_of r1 tok) (world k)) as [[seqs|e'] w'];
      cbn [fst snd]; [discriminate|].
    intros _. split; reflexivity. }
  pose proof (falcon_generate_dispatch r2 Hl1) as [Hc2 Ho2].
  destruct (Falcon.generate r1 k) as [o1 k1]. cbn [fst snd] in *.
  destruct (Falcon.generate r2 k1) as [o2 k2]. cbn [fst snd] in *.
  split; [exact Hl1|]. split; [exact Hquiet|]. split.
  - rewrite Hc2, Hc1, <- app_assoc. reflexivity.
  - rewrite Ho2. reflexivity.
Qed.

Lemma every_run_dispatches_again_witness :
  Falcon.loaded (Scripted.falcon_kernel [Scripted.Interrupt]) tt
    Scripted.falcon_tokenizer /\
  fst (run_cells [Falcon.generation_cell; Falcon.generation_cell]
         (Scripted.falcon_kernel [Scripted.Interrupt])) =
  [Raised KeyboardInterrupt; Returned tt] /\
  generation_calls
    (calls (snd (run_cells [Falcon.generation_cell; Falcon.generation_cell]
                   (Scripted.falcon_kernel [Scripted.Interrupt])))) = 2.
Proof.
  split; [split; reflexivity|].
  destruct (@every_run_dispatches_again Scripted.library
              Falcon.notebook_request Falcon.notebook_request
              (Scripted.falcon_kernel [Scripted.Interrupt]) tt
              Scripted.falcon_tokenizer (conj eq_refl eq_refl))
    as [_ [_ [Hcalls Houtcomes]]].
  split.
  - exact Houtcomes.
  - unfold Falcon.generation_cell. rewrite Hcalls. reflexivity.
Defined.

(** ** One call per invocation *)

(** C6.  One run of a generation cell makes exactly one call into the
    generation capability, whatever that call does: return, fail or be
    interrupted.  Nothing is retried.  For the Falcon cell the call is the
    first thing that reaches the library; the Mistral cell tokenises first,
    so it makes the one call as soon as the tokenizer has returned and none
    if the tokenizer raised. *)
Theorem one_generation_call_per_invocation (L : Library) :
  (forall (r : Falcon.GenerationRequest) (k : Kernel L (Falcon.NS L))
      (p : PipelineObj L) (tok : Tokenizer),
      Falcon.loaded k p tok ->
      generation_calls (calls (snd (Falcon.generate r k))) =
      S (generation_calls (calls k))) /\
  (forall (t : string) (k : Kernel L (Mistral.NS L))
      (m : ModelObj L) (tok : Tokenizer),
      Mistral.loaded k m tok ->
      generation_calls (calls (snd (Mistral.generate t k))) <=
      S (generation_calls (calls k)) /\
      (forall enc w1,
          tokenizer_call L tok t "pt" false (world k) = (Returned enc, w1) ->
          generation_calls (calls (snd (Mistral.generate t k))) =
          S (generation_calls (calls k)))).
Proof.
  split.
  - intros r k p tok Hl.
    destruct (falcon_generate_dispatch r Hl) as [-> _].
    rewrite generation_calls_app. cbn. lia.
  - intros t k m tok Hl. rewrite (mistral_generation_calls t Hl). split.
    + destruct (tokenizer_call L tok t "pt" false (world k)) as [[enc|e] w1];
        lia.
    + intros enc w1 ->. lia.
Qed.

Lemma one_generation_call_per_invocation_witness :
  Falcon.loaded (Scripted.falcon_kernel [Scripted.OutOfMemory]) tt
    Scripted.falcon_tokenizer /\
  fst (Falcon.generation_cell (Scripted.falcon_kernel [Scripted.OutOfMemory]))
  = Raised (LibraryError "OutOfMemoryError") /\
  generation_calls
    (calls (snd (Falcon.generation_cell
                   (Scripted.falcon_kernel [Scripted.OutOfMemory])))) = 1 /\
  Mistral.loaded (Scripted.mistral_kernel [Scripted.Interrupt]) tt
    Scripted.mistral_tokenizer /\
  generation_calls
    (calls (snd (Mistral.generation_cell
                   (Scripted.mistral_kernel [Scripted.Interrupt])))) = 1.
Proof.
  destruct (one_generation_call_per_invocation Scripted.library)
    as [Hfalcon Hmistral].
  split; [split; reflexivity|]. split; [reflexivity|]. split.
  - exact (Hfalcon Falcon.notebook_request
             (Scripted.falcon_kernel [Scripted.OutOfMemory]) tt
             Scripted.falcon_tokenizer (conj eq_refl eq_refl)).
  - split; [split; reflexivity|].
    eapply (proj2 (Hmistral "[INST] ~Add your instrunctions here~ [/INST]"%string
                     (Scripted.mistral_kernel [Scripted.Interrupt]) tt
                     Scripted.mistral_tokenizer (conj eq_refl eq_refl))).
    reflexivity.
Defined.

(** ** The end-of-sequence id *)

(** C7 does not hold as stated.  The Mistral cell passes no
    [eos_token_id]: what reaches [model.generate] carries none, although
    the tokenizer has one. *)
Lemma mistral_dispatch_carries_no_eos_token_id :
  ~ (forall (L : Library) (t : string) (k : Kernel L (Mistral.NS L))
       (m : ModelObj L) (tok : Tokenizer),
        Mistral.loaded k m tok ->
        forall m' inp kw,
          In (ModelGenerate m' inp kw)
            (calls (snd (Mistral.generate t k))) ->
          eos_token_id kw = tok_eos_token_id tok).
Proof.
  intros H.
  specialize (H Scripted.library "hi"%string (Scripted.mistral_kernel [])
                tt Scripted.mistral_tokenizer (conj eq_refl eq_refl)
                tt
                {| input_ids := [Scripted.encode "hi"];
                   attention_mask := [[1%Z; 1%Z]] |}
                Mistral.generate_kwargs).
  assert (Hin : In (@ModelGenerate Scripted.library tt
                      {| input_ids := [Scripted.encode "hi"];
                         attention_mask := [[1%Z; 1%Z]] |}
                      Mistral.generate_kwargs)
                  (calls (snd (Mistral.generate "hi"%string
                                 (Scripted.mistral_kernel []))))).
  { vm_compute. do 4 right. left. reflexivity. }
  specialize (H Hin). discriminate H.
Qed.

(** C7, amended.  The Falcon cell always passes the tokenizer's own
    end-of-sequence id as [eos_token_id]; the request has no such field of
    its own.  The Mistral cell passes no [eos_token_id] and leaves the
    choice to [model.generate]: once the tokenizer has returned, the call
    is made with [max_new_tokens] and [do_sample] alone.  In neither cell
    is the absence of an end-of-sequence id a reason to stop before the
    call. *)
Theorem eos_token_id_as_dispatched (L : Library) :
  (forall (r : Falcon.GenerationRequest) (k : Kernel L (Falcon.NS L))
      (p : PipelineObj L) (tok : Tokenizer),
      Falcon.loaded k p tok ->
      calls (snd (Falcon.generate r k)) =
      calls k ++
      [PipelineCall p (Falcon.req_prompt r) (Falcon.kwargs_of r tok)] /\
      eos_token_id (Falcon.kwargs_of r tok) = tok_eos_token_id tok) /\
  (forall (t : string) (k : Kernel L (Mistral.NS L))
      (m : ModelObj L) (tok : Tokenizer) enc w1,
      Mistral.loaded k m tok ->
      tokenizer_call L tok t "pt" false (world k) = (Returned enc, w1) ->
      filter is_generation_call (calls (snd (Mistral.generate t k))) =
      filter is_generation_call (calls k) ++
      [ModelGenerate m enc Mistral.generate_kwargs] /\
      eos_token_id Mistral.generate_kwargs = None).
Proof.
  split.
  - intros r k p tok Hl. split; [|reflexivity].
    exact (proj1 (falcon_generate_dispatch r Hl)).
  - intros t k m tok enc w1 Hl Htok. split; [|reflexivity].
    rewrite (mistral_generation_dispatch t Hl), Htok. reflexivity.
Qed.

Lemma eos_token_id_as_dispatched_witness :
  (Falcon.loaded (Scripted.falcon_kernel []) tt Scripted.falcon_tokenizer /\
   calls (snd (Falcon.generation_cell (Scripted.falcon_kernel []))) =
   calls (Scripted.falcon_kernel []) ++
   [@PipelineCall Scripted.library tt "who invented computers"%string
      {| max_length := Some 5000%Z; max_new_tokens := None;
         do_sample := Some true; top_k := Some 10%Z;
         num_return_sequences := Some 1%Z; eos_token_id := Some 2%Z |}]) /\
  (Mistral.loaded (Scripted.mistral_kernel []) tt Scripted.mistral_tokenizer /\
   filter is_generation_call
     (calls (snd (Mistral.generate "hi"%string (Scripted.mistral_kernel []))))
   = [@ModelGenerate Scripted.library tt
        {| input_ids := [[104%Z; 105%Z]]; attention_mask := [[1%Z; 1%Z]] |}
        {| max_length := None; max_new_tokens := Some 200%Z;
           do_sample := Some true; top_k := None;
           num_return_sequences := None; eos_token_id := None |}]).
Proof.
  destruct (eos_token_id_as_dispatched Scripted.library)
    as [Hfalcon Hmistral].
  split; (split; [split; reflexivity|]).
  - exact (proj1 (Hfalcon Falcon.notebook_request (Scripted.falcon_kernel [])
                    tt Scripted.falcon_tokenizer (conj eq_refl eq_refl))).
  - exact (proj1 (Hmistral "hi"%string (Scripted.mistral_kernel []) tt
                    Scripted.mistral_tokenizer
                    {| input_ids := [[104%Z; 105%Z]];
                       attention_mask := [[1%Z; 1%Z]] |}
                    []
                    (conj eq_refl eq_refl) eq_refl)).
Defined.

(** ** Sampling-only fields *)

(** C8.  With sampling off, what a run of the generation cell gives does
    not depend on [top_k], whether it has a value or is left out: the same
    outcome, the same globals, the same output, the same state of the
    library.  The cell has no check of its own on [top_k] and passes it on
    as written; that greedy decoding does not consult it is the library's
    part ([GreedyIgnoresTopK]). *)
Theorem greedy_request_ignores_top_k (L : Library) :
  GreedyIgnoresTopK L ->
  forall (r : Falcon.GenerationRequest) (v1 v2 : option Z)
         (k : Kernel L (Falcon.NS L)),
    Falcon.req_do_sample r = false ->
    fst (Falcon.generate (Falcon.with_top_k v1 r) k) =
    fst (Falcon.generate (Falcon.with_top_k v2 r) k) /\
    ns (snd (Falcon.generate (Falcon.with_top_k v1 r) k)) =
    ns (snd (Falcon.generate (Falcon.with_top_k v2 r) k)) /\
    world (snd (Falcon.generate (Falcon.with_top_k v1 r) k)) =
    world (snd (Falcon.generate (Falcon.with_top_k v2 r) k)) /\
    stdout (snd (Falcon.generate (Falcon.with_top_k v1 r) k)) =
    stdout (snd (Falcon.generate (Falcon.with_top_k v2 r) k)).
Proof.
  intros Hgreedy r v1 v2 k Hoff.
  destruct (Falcon.pipeline (ns k)) as [p|] eqn:Hp;
    [destruct (Falcon.tokenizer (ns k)) as [tok|] eqn:Ht|].
  - assert (Hl : Falcon.loaded k p tok) by (split; assumption).
    rewrite !(falcon_generate_run _ Hl).
    change (Falcon.req_prompt (Falcon.with_top_k v1 r))
      with (Falcon.req_prompt r).
    change (Falcon.req_prompt (Falcon.with_top_k v2 r))
      with (Falcon.req_prompt r).
    change (Falcon.kwargs_of (Falcon.with_top_k v1 r) tok)
      with (set_top_k v1 (Falcon.kwargs_of r tok)).
    change (Falcon.kwargs_of (Falcon.with_top_k v2 r) tok)
      with (set_top_k v2 (Falcon.kwargs_of r tok)).
    rewrite (Hgreedy p (Falcon.req_prompt r) (Falcon.kwargs_of r tok)
               v1 v2 (world k)) by (cbn; rewrite Hoff; reflexivity).
    destruct (pipeline_call L p (Falcon.req_prompt r)
                (set_top_k v2 (Falcon.kwargs_of r tok)) (world k))
      as [[seqs|e] w']; repeat split; reflexivity.
  - unfold Falcon.generate. cell_unfold.
    change (Falcon.pipeline (Falcon.set_prompt ?x (ns k)))
      with (Falcon.pipeline (ns k)).
    rewrite Hp. cbn [ns world stdout calls fst snd].
    change (Falcon.prompt (Falcon.set_prompt ?x (ns k))) with (Some x).
    cbn [ns world stdout calls fst snd].
    change (Falcon.tokenizer (Falcon.set_prompt ?x (ns k)))
      with (Falcon.tokenizer (ns k)).
    rewrite Ht. repeat split; reflexivity.
  - unfold Falcon.generate. cell_unfold.
    change (Falcon.pipeline (Falcon.set_prompt ?x (ns k)))
      with (Falcon.pipeline (ns k)).
    rewrite Hp. repeat split; reflexivity.
Qed.

Lemma greedy_request_ignores_top_k_witness :
  Falcon.req_do_sample (Scripted.greedy_request None) = false /\
  fst (Falcon.generate (Scripted.greedy_request (Some 10%Z))
         (Scripted.falcon_kernel [])) =
  fst (Falcon.generate (Scripted.greedy_request None)
         (Scripted.falcon_kernel [])) /\
  stdout (snd (Falcon.generate (Scripted.greedy_request (Some 10%Z))
                 (Scripted.falcon_kernel []))) =
  stdout (snd (Falcon.generate (Scripted.greedy_request None)
                 (Scripted.falcon_kernel []))).
Proof.
  split; [reflexivity|].
  destruct (@greedy_request_ignores_top_k Scripted.library
              scripted_greedy_ignores_top_k
              (Scripted.greedy_request None) (Some 10%Z) None
              (Scripted.falcon_kernel []) eq_refl)
    as [Hout [_ [_ Hprinted]]].
  split; [exact Hout | exact Hprinted].
Defined.

(** ** What is printed *)



(** ** The unused stop list *)

(** C10.  The output of the Mistral generation step does not depend on
    [stop_token_ids].  The generation cell never reads that global: run
    from two kernels that differ only in it, the cell has the same
    outcome, prints the same, makes the same calls with the same
    arguments and leaves the library in the same state, and the kernels
    it leaves still differ only in that global.  So whatever list the
    tokenizer cell writes, running it and then the generation cell gives
    the same. *)
Theorem stop_token_ids_do_not_reach_generation (L : Library) :
  (forall (t : string) (k : Kernel L (Mistral.NS L)) (v : option (list Z)),
      fst (Mistral.generate t (Mistral.with_stop_token_ids v k)) =
      fst (Mistral.generate t k) /\
      snd (Mistral.generate t (Mistral.with_stop_token_ids v k)) =
      Mistral.with_stop_token_ids v (snd (Mistral.generate t k))) /\
  (forall (s1 s2 : list Z) (k : Kernel L (Mistral.NS L)),
      fst (run_cells [Mistral.tokenizer_cell_with s1; Mistral.generation_cell]
             k) =
      fst (run_cells [Mistral.tokenizer_cell_with s2; Mistral.generation_cell]
             k) /\
      Mistral.same_but_stop_token_ids
        (snd (run_cells
                [Mistral.tokenizer_cell_with s1; Mistral.generation_cell] k))
        (snd (run_cells
                [Mistral.tokenizer_cell_with s2; Mistral.generation_cell] k))).
Proof.
  split.
  - intros t k v. rewrite mistral_generate_stop_independent.
    split; reflexivity.
  - intros s1 s2 k. cbn [run_cells].
    destruct (mistral_tokenizer_cell_stop s1 s2 k) as [Hout [v Hk]].
    destruct (Mistral.tokenizer_cell_with s1 k) as [o1 k1].
    destruct (Mistral.tokenizer_cell_with s2 k) as [o2 k2].
    cbn [fst snd] in Hout, Hk. subst o2 k2.
    unfold Mistral.generation_cell.
    rewrite mistral_generate_stop_independent.
    destruct (Mistral.generate "[INST] ~Add your instrunctions here~ [/INST]"
                k1) as [o k'].
    cbn [fst snd]. split; [reflexivity|].
    unfold Mistral.same_but_stop_token_ids.
    rewrite mistral_with_stop_twice. reflexivity.
Qed.

(** * Further properties of the notebooks *)

(** ** The Falcon loading cell *)

Section FalconLoading.
Context {L : Library}.

(** One run of the loading cell: the tokenizer is loaded, then the
    pipeline is built with it; the first exception ends the cell. *)
Lemma falcon_load_cell_run (k : Kernel L (Falcon.NS L)) :
  Falcon.load_cell k =
  let n1 := Falcon.set_model "tiiuae/falcon-7b"
              (Falcon.set_model40b "tiiuae/falcon-40b"
                 (Falcon.set_model7b "tiiuae/falcon-7b" (ns k))) in
  let c1 := calls k ++ [LoadTokenizer "tiiuae/falcon-7b"] in
  match AutoTokenizer_from_pretrained L "tiiuae/falcon-7b" (world k) with
  | (Raised e, w1) =>
      (Raised e,
       {| ns := n1; world := w1; stdout := stdout k; calls := c1 |})
  | (Returned tok, w1) =>
      let c2 := c1 ++ [BuildPipeline "text-generation" "tiiuae/falcon-7b"
                         tok] in
      match transformers_pipeline L "text-generation" "tiiuae/falcon-7b"
              tok bfloat16 true "auto" w1 with
      | (Raised e, w2) =>
          (Raised e,
           {| ns := Falcon.set_tokenizer tok n1; world := w2;
              stdout := stdout k; calls := c2 |})
      | (Returned p, w2) =>
          (Returned tt,
           {| ns := Falcon.set_pipeline p (Falcon.set_tokenizer tok n1);
              world := w2; stdout := stdout k; calls := c2 |})
      end
  end.
Proof.
  destruct k as [n w out cs]. destruct n.
  unfold Falcon.load_cell. cell_unfold. cbn.
  destruct (AutoTokenizer_from_pretrained L "tiiuae/falcon-7b" w)
    as [[tok|e] w1]; [|reflexivity].
  cbn.
  destruct (transformers_pipeline L "text-generation" "tiiuae/falcon-7b"
              tok bfloat16 true "auto" w1) as [[p|e] w2]; reflexivity.
Qed.

End FalconLoading.

(** X1.  The loading cell does not depend on what the globals held
    before.  When both library calls return, it has loaded the tokenizer
    of the 7B model, built the pipeline for the same model with that very
    tokenizer, bound both, and printed nothing. *)
Theorem falcon_load_cell_binds_what_it_loads (L : Library)
  (k : Kernel L (Falcon.NS L)) (tok : Tokenizer) (p : PipelineObj L)
  (w1 w2 : World L) :
  AutoTokenizer_from_pretrained L "tiiuae/falcon-7b" (world k)
  = (Returned tok, w1) ->
  transformers_pipeline L "text-generation" "tiiuae/falcon-7b" tok
    bfloat16 true "auto" w1 = (Returned p, w2) ->
  fst (Falcon.load_cell k) = Returned tt /\
  Falcon.loaded (snd (Falcon.load_cell k)) p tok /\
  Falcon.model (ns (snd (Falcon.load_cell k))) = Some "tiiuae/falcon-7b"%string
  /\
  calls (snd (Falcon.load_cell k)) =
  calls k ++
  [LoadTokenizer "tiiuae/falcon-7b";
   BuildPipeline "text-generation" "tiiuae/falcon-7b" tok] /\
  stdout (snd (Falcon.load_cell k)) = stdout k /\
  world (snd (Falcon.load_cell k)) = w2.
Proof.
  intros Htok Hpipe. rewrite falcon_load_cell_run. cbv zeta.
  rewrite Htok, Hpipe. cbn [fst snd ns calls stdout world].
  rewrite <- app_assoc. repeat split; reflexivity.
Qed.

Lemma falcon_load_cell_binds_what_it_loads_witness :
  Falcon.loaded (snd (Falcon.load_cell (Faulty.falcon_fresh Faulty.none))) tt
    {| tok_name := "tiiuae/falcon-7b"; tok_bos_token_id := None;
       tok_eos_token_id := Some 2%Z |} /\
  calls (snd (Falcon.load_cell (Faulty.falcon_fresh Faulty.none))) =
  [LoadTokenizer "tiiuae/falcon-7b";
   BuildPipeline "text-generation" "tiiuae/falcon-7b"
     {| tok_name := "tiiuae/falcon-7b"; tok_bos_token_id := None;
        tok_eos_token_id := Some 2%Z |}].
Proof.
  destruct (@falcon_load_cell_binds_what_it_loads (Faulty.library Faulty.none)
              (Faulty.falcon_fresh Faulty.none)
              {| tok_name := "tiiuae/falcon-7b"; tok_bos_token_id := None;
                 tok_eos_token_id := Some 2%Z |}
              tt [] [] eq_refl eq_refl)
    as [_ [Hloaded [_ [Hcalls _]]]].
  split; [exact Hloaded | exact Hcalls].
Defined.

(** X2.  A loading cell that fails leaves the pipeline global as it was.
    If the tokenizer does not load, no pipeline is built and the
    tokenizer global keeps its old value too; if the tokenizer loads and
    the pipeline does not build, the tokenizer global is already rebound,
    next to whatever pipeline was there before. *)
Theorem falcon_load_cell_failure (L : Library) (k : Kernel L (Falcon.NS L)) :
  (forall e w1,
      AutoTokenizer_from_pretrained L "tiiuae/falcon-7b" (world k)
      = (Raised e, w1) ->
      fst (Falcon.load_cell k) = Raised e /\
      calls (snd (Falcon.load_cell k)) =
      calls k ++ [LoadTokenizer "tiiuae/falcon-7b"] /\
      Falcon.tokenizer (ns (snd (Falcon.load_cell k))) =
      Falcon.tokenizer (ns k) /\
      Falcon.pipeline (ns (snd (Falcon.load_cell k))) =
      Falcon.pipeline (ns k)) /\
  (forall tok w1 e w2,
      AutoTokenizer_from_pretrained L "tiiuae/falcon-7b" (world k)
      = (Returned tok, w1) ->
      transformers_pipeline L "text-generation" "tiiuae/falcon-7b" tok
        bfloat16 true "auto" w1 = (Raised e, w2) ->
      fst (Falcon.load_cell k) = Raised e /\
      Falcon.tokenizer (ns (snd (Falcon.load_cell k))) = Some tok /\
      Falcon.pipeline (ns (snd (Falcon.load_cell k))) =
      Falcon.pipeline (ns k)).
Proof.
  split.
  - intros e w1 Htok. rewrite falcon_load_cell_run. cbv zeta.
    rewrite Htok. repeat split; reflexivity.
  - intros tok w1 e w2 Htok Hpipe. rewrite falcon_load_cell_run. cbv zeta.
    rewrite Htok, Hpipe. repeat split; reflexivity.
Qed.

Lemma falcon_load_cell_failure_witness :
  (fst (Falcon.load_cell (Faulty.falcon_fresh Faulty.no_tokenizer)) =
   Raised (LibraryError "OSError") /\
   Falcon.pipeline
     (ns (snd (Falcon.load_cell (Faulty.falcon_fresh Faulty.no_tokenizer))))
   = None) /\
  (fst (Falcon.load_cell (Faulty.falcon_fresh Faulty.no_pipeline)) =
   Raised (LibraryError "OutOfMemoryError") /\
   Falcon.pipeline
     (ns (snd (Falcon.load_cell (Faulty.falcon_fresh Faulty.no_pipeline))))
   = None).
Proof.
  split.
  - destruct (proj1 (falcon_load_cell_failure
                       (Faulty.falcon_fresh Faulty.no_tokenizer))
                (LibraryError "OSError") [] eq_refl)
      as [Hout [_ [_ Hpipe]]].
    split; [exact Hout | exact Hpipe].
  - destruct (proj2 (falcon_load_cell_failure
                       (Faulty.falcon_fresh Faulty.no_pipeline))
                {| tok_name := "tiiuae/falcon-7b"; tok_bos_token_id := None;
                   tok_eos_token_id := Some 2%Z |}
                [] (LibraryError "OutOfMemoryError") [] eq_refl eq_refl)
      as [Hout [_ Hpipe]].
    split; [exact Hout | exact Hpipe].
Defined.

(** ** The Falcon generation cell outside its happy path *)

Lemma falcon_generate_needs_loaded_globals_aux (L : Library)
  (r : Falcon.GenerationRequest) (k : Kernel L (Falcon.NS L)) :
  (Falcon.pipeline (ns k) = None ->
   Falcon.generate r k =
   (Raised (NameError "pipeline"),
    {| ns := Falcon.set_prompt (Falcon.req_prompt r) (ns k);
       world := world k; stdout := stdout k; calls := calls k |})) /\
  (forall p,
      Falcon.pipeline (ns k) = Some p ->
      Falcon.tokenizer (ns k) = None ->
      Falcon.generate r k =
      (Raised (NameError "tokenizer"),
       {| ns := Falcon.set_prompt (Falcon.req_prompt r) (ns k);
          world := world k; stdout := stdout k; calls := calls k |})).
Proof.
  destruct k as [n w out cs]. destruct n. cbn [ns world stdout calls].
  cbn [Falcon.pipeline Falcon.tokenizer]. split.
  - intros ->. reflexivity.
  - intros p -> ->. reflexivity.
Qed.

(** X3.  Run before the loading cell (or after one that failed), the
    generation cell ends in a [NameError] for the first global it misses,
    [pipeline] before [tokenizer].  It has rebound [prompt] by then, and
    nothing else has happened: no call into the library, nothing
    printed. *)
Theorem falcon_generate_needs_loaded_globals (L : Library)
  (r : Falcon.GenerationRequest) (k : Kernel L (Falcon.NS L)) :
  (Falcon.pipeline (ns k) = None ->
   Falcon.generate r k =
   (Raised (NameError "pipeline"),
    {| ns := Falcon.set_prompt (Falcon.req_prompt r) (ns k);
       world := world k; stdout := stdout k; calls := calls k |})) /\
  (forall p,
      Falcon.pipeline (ns k) = Some p ->
      Falcon.tokenizer (ns k) = None ->
      Falcon.generate r k =
      (Raised (NameError "tokenizer"),
       {| ns := Falcon.set_prompt (Falcon.req_prompt r) (ns k);
          world := world k; stdout := stdout k; calls := calls k |})).
Proof.
  exact (falcon_generate_needs_loaded_globals_aux r k).
Qed.

Lemma falcon_generate_needs_loaded_globals_witness :
  Falcon.generation_cell (Faulty.falcon_fresh Faulty.none) =
  (Raised (NameError "pipeline"),
   @Build_Kernel (Faulty.library Faulty.none) _
     (Falcon.set_prompt "who invented computers"
        (Falcon.empty_ns (Faulty.library Faulty.none)))
     [] [] []) /\
  fst (Falcon.generation_cell
         (snd (Falcon.load_cell (Faulty.falcon_fresh Faulty.no_tokenizer))))
  = Raised (NameError "pipeline").
Proof.
  split.
  - exact (proj1 (falcon_generate_needs_loaded_globals Falcon.notebook_request
                    (Faulty.falcon_fresh Faulty.none)) eq_refl).
  - unfold Falcon.generation_cell.
    rewrite (proj1 (falcon_generate_needs_loaded_globals
                      Falcon.notebook_request
                      (snd (Falcon.load_cell
                              (Faulty.falcon_fresh Faulty.no_tokenizer))))
               eq_refl).
    reflexivity.
Defined.

Lemma falcon_loop_last (L : Library) (init : list GeneratedDict)
  (d : GeneratedDict) (n : Falcon.NS L) :
  Falcon.seq (fold_left (fun n s => Falcon.set_seq s n) (init ++ [d]) n)
  = Some d.
Proof. rewrite fold_left_app. reflexivity. Qed.

(** X4.  The loop variable outlives the loop.  After a run that printed
    something, [seq] is the last sequence returned; if the pipeline
    returned the empty list, the cell still returns, prints nothing and
    leaves [seq] as it was. *)
Theorem falcon_loop_variable_is_last_sequence (L : Library)
  (r : Falcon.GenerationRequest) (k : Kernel L (Falcon.NS L))
  (p : PipelineObj L) (tok : Tokenizer) (seqs : list GeneratedDict)
  (w' : World L) :
  Falcon.loaded k p tok ->
  pipeline_call L p (Falcon.req_prompt r) (Falcon.kwargs_of r tok) (world k)
  = (Returned seqs, w') ->
  (seqs = [] ->
   fst (Falcon.generate r k) = Returned tt /\
   stdout (snd (Falcon.generate r k)) = stdout k /\
   Falcon.seq (ns (snd (Falcon.generate r k))) = Falcon.seq (ns k)) /\
  (forall init d,
      seqs = init ++ [d] ->
      Falcon.seq (ns (snd (Falcon.generate r k))) = Some d).
Proof.
  intros Hl Hcall. rewrite (falcon_generate_run r Hl), Hcall.
  cbn [fst snd ns stdout]. split.
  - intros ->. cbn. rewrite app_nil_r. repeat split; reflexivity.
  - intros init d ->. apply falcon_loop_last.
Qed.

Lemma falcon_loop_variable_is_last_sequence_witness :
  Falcon.seq
    (ns (snd (Falcon.generate Scripted.three_request
                (Scripted.falcon_kernel [])))) =
  Some {| generated_text :=
            "who invented computers (sampled from the top k)" |}.
Proof.
  refine (proj2 (@falcon_loop_variable_is_last_sequence Scripted.library
                   Scripted.three_request (Scripted.falcon_kernel []) tt
                   Scripted.falcon_tokenizer _ []
                   (conj eq_refl eq_refl) eq_refl)
            [ {| generated_text :=
                   "who invented computers (sampled from the top k)" |};
              {| generated_text :=
                   "who invented computers (sampled from the top k)" |} ]
            _ eq_refl).
Defined.

(** X5.  The two Falcon cells in notebook order.  When the tokenizer
    loads and the pipeline builds, the generation cell calls the pipeline
    the loading cell has just built, with the end-of-sequence id of the
    tokenizer it has just loaded; these are the only three calls, and the
    outcome of the second cell is the outcome of the pipeline call. *)
Theorem falcon_notebook_run (L : Library) (r : Falcon.GenerationRequest)
  (k : Kernel L (Falcon.NS L)) (tok : Tokenizer) (p : PipelineObj L)
  (w1 w2 : World L) :
  AutoTokenizer_from_pretrained L "tiiuae/falcon-7b" (world k)
  = (Returned tok, w1) ->
  transformers_pipeline L "text-generation" "tiiuae/falcon-7b" tok
    bfloat16 true "auto" w1 = (Returned p, w2) ->
  fst (run_cells [Falcon.load_cell; Falcon.generate r] k) =
  [Returned tt;
   discard (fst (pipeline_call L p (Falcon.req_prompt r)
                   (Falcon.kwargs_of r tok) w2))] /\
  calls (snd (run_cells [Falcon.load_cell; Falcon.generate r] k)) =
  calls k ++
  [LoadTokenizer "tiiuae/falcon-7b";
   BuildPipeline "text-generation" "tiiuae/falcon-7b" tok;
   PipelineCall p (Falcon.req_prompt r)
     {| max_length := Falcon.req_max_length r;
        max_new_tokens := None;
        do_sample := Some (Falcon.req_do_sample r);
        top_k := Falcon.req_top_k r;
        num_return_sequences := Some (Falcon.req_num_return_sequences r);
        eos_token_id := tok_eos_token_id tok |}].
Proof.
  intros Htok Hpipe. cbn [run_cells].
  rewrite falcon_load_cell_run. cbv zeta. rewrite Htok, Hpipe.
  match goal with
  | |- context [Falcon.generate r ?k1] =>
      assert (Hl : Falcon.loaded k1 p tok) by (split; reflexivity);
      destruct (falcon_generate_dispatch r Hl) as [Hc Ho];
      destruct (Falcon.generate r k1) as [o2 k2]
  end.
  cbn [fst snd calls world] in *. rewrite Hc, Ho, <- !app_assoc.
  split; reflexivity.
Qed.

Lemma falcon_notebook_run_witness :
  fst (run_cells [Falcon.load_cell; Falcon.generation_cell]
         (Faulty.falcon_fresh Faulty.none)) = [Returned tt; Returned tt] /\
  generation_calls
    (calls (snd (run_cells [Falcon.load_cell; Falcon.generation_cell]
                   (Faulty.falcon_fresh Faulty.none)))) = 1.
Proof.
  destruct (@falcon_notebook_run (Faulty.library Faulty.none)
              Falcon.notebook_request (Faulty.falcon_fresh Faulty.none)
              {| tok_name := "tiiuae/falcon-7b"; tok_bos_token_id := None;
                 tok_eos_token_id := Some 2%Z |}
              tt [] [] eq_refl eq_refl) as [Hout Hcalls].
  split.
  - exact Hout.
  - unfold Falcon.generation_cell. rewrite Hcalls. reflexivity.
Defined.

(** ** Exceptions and output *)

(** X6.  A generation cell that ends in an exception has printed nothing,
    whatever the exception and wherever it came from (a missing global,
    the library, an empty batch).  The Falcon cell has by then rebound
    [prompt] but not [sequences], so the two no longer belong together;
    the Mistral cell has rebound [text]. *)
Theorem generation_cells_print_nothing_when_they_raise (L : Library) :
  (forall (r : Falcon.GenerationRequest) (k : Kernel L (Falcon.NS L)) e,
      fst (Falcon.generate r k) = Raised e ->
      stdout (snd (Falcon.generate r k)) = stdout k /\
      Falcon.prompt (ns (snd (Falcon.generate r k)))
      = Some (Falcon.req_prompt r) /\
      Falcon.sequences (ns (snd (Falcon.generate r k)))
      = Falcon.sequences (ns k)) /\
  (forall (t : string) (k : Kernel L (Mistral.NS L)) e,
      fst (Mistral.generate t k) = Raised e ->
      stdout (snd (Mistral.generate t k)) = stdout k /\
      Mistral.text (ns (snd (Mistral.generate t k))) = Some t).
Proof.
  split.
  - intros r k e.
    destruct (Falcon.pipeline (ns k)) as [p|] eqn:Hp.
    + destruct (Falcon.tokenizer (ns k)) as [tok|] eqn:Ht.
      * rewrite (falcon_generate_run r (conj Hp Ht)).
        destruct (pipeline_call L p (Falcon.req_prompt r)
                    (Falcon.kwargs_of r tok) (world k)) as [[seqs|e'] w'];
          cbn [fst snd ns stdout]; [discriminate|].
        intros _. repeat split; reflexivity.
      * rewrite (proj2 (falcon_generate_needs_loaded_globals_aux r k) p Hp Ht).
        intros _. repeat split; reflexivity.
    + rewrite (proj1 (falcon_generate_needs_loaded_globals_aux r k) Hp).
      intros _. repeat split; reflexivity.
  - intros t k e.
    destruct k as [n w out cs]. destruct n as [a b m tok c d f g h i].
    unfold Mistral.generate. cell_unfold. cbn.
    destruct tok as [tok|]; [|intros _; split; reflexivity]. cbn.
    destruct (tokenizer_call L tok t "pt" false w) as [[enc|x] w1];
      [|intros _; split; reflexivity].
    cbn. destruct m as [m|]; [|intros _; split; reflexivity]. cbn.
    destruct (model_generate L m enc Mistral.generate_kwargs w1)
      as [[ids|x] w2]; [|intros _; split; reflexivity].
    cbn.
    destruct (tokenizer_batch_decode L tok ids w2) as [[strs|x] w3];
      [|intros _; split; reflexivity].
    cbn. destruct strs as [|first rest]; cbn; [|discriminate].
    intros _. split; reflexivity.
Qed.

Lemma generation_cells_print_nothing_when_they_raise_witness :
  stdout (snd (Falcon.generation_cell
                 (Scripted.falcon_kernel [Scripted.OutOfMemory]))) = [] /\
  stdout (snd (Mistral.generation_cell
                 (Scripted.mistral_kernel [Scripted.Interrupt]))) =
  stdout (Scripted.mistral_kernel [Scripted.Interrupt]).
Proof.
  destruct (generation_cells_print_nothing_when_they_raise Scripted.library)
    as [Hfalcon Hmistral].
  split.
  - exact (proj1 (Hfalcon Falcon.notebook_request
                    (Scripted.falcon_kernel [Scripted.OutOfMemory])
                    (LibraryError "OutOfMemoryError") eq_refl)).
  - exact (proj1 (Hmistral "[INST] ~Add your instrunctions here~ [/INST]"%string
                    (Scripted.mistral_kernel [Scripted.Interrupt])
                    KeyboardInterrupt eq_refl)).
Defined.

(** ** The Mistral generation cell *)



(** X8.  An empty batch is an [IndexError].  If decoding returns no row,
    [decoded[0]] raises after all three library calls have been made;
    [decoded] is bound to the empty list and nothing is printed. *)
Theorem mistral_empty_batch_raises_index_error (L : Library) (t : string)
  (k : Kernel L (Mistral.NS L)) (m : ModelObj L) (tok : Tokenizer)
  (enc : BatchEncoding) (ids : list (list Z)) (w1 w2 w3 : World L) :
  Mistral.loaded k m tok ->
  tokenizer_call L tok t "pt" false (world k) = (Returned enc, w1) ->
  model_generate L m enc Mistral.generate_kwargs w1 = (Returned ids, w2) ->
  tokenizer_batch_decode L tok ids w2 = (Returned [], w3) ->
  fst (Mistral.generate t k) = Raised IndexError /\
  Mistral.decoded (ns (snd (Mistral.generate t k))) = Some [] /\
  stdout (snd (Mistral.generate t k)) = stdout k /\
  calls (snd (Mistral.generate t k)) =
  calls k ++
  [TokenizerCall tok t; ModelGenerate m enc Mistral.generate_kwargs;
   BatchDecode tok ids].
Proof.
  intros Hl Htok Hgen Hdec. rewrite (mistral_generate_run t Hl).
  rewrite Htok. cbv zeta. rewrite Hgen, Hdec.
  cbn [fst snd ns stdout calls]. rewrite <- !app_assoc.
  repeat split; reflexivity.
Qed.

Lemma mistral_empty_batch_raises_index_error_witness :
  fst (Mistral.generation_cell (Faulty.mistral_kernel (Faulty.decodes_to [])))
  = Raised IndexError /\
  stdout (snd (Mistral.generation_cell
                 (Faulty.mistral_kernel (Faulty.decodes_to [])))) =
  stdout (Faulty.mistral_kernel (Faulty.decodes_to [])).
Proof.
  destruct (@mistral_empty_batch_raises_index_error
              (Faulty.library (Faulty.decodes_to []))
              "[INST] ~Add your instrunctions here~ [/INST]"%string
              (Faulty.mistral_kernel (Faulty.decodes_to []))
              tt
              {| tok_name :=
                   "filipealmeida/Mistral-7B-Instruct-v0.1-sharded";
                 tok_bos_token_id := Some 1%Z;
                 tok_eos_token_id := Some 2%Z |}
              _ _ [] [] []
              (conj eq_refl eq_refl) eq_refl eq_refl eq_refl)
    as [Hout [_ [Hprinted _]]].
  split; [exact Hout | exact Hprinted].
Defined.

(** X10.  The Mistral cell tokenises before it needs the model.  With no
    tokenizer bound it ends in a [NameError] without any call.  With a
    tokenizer but no model, the text is tokenised first and bound to
    [encoded] and [model_input]; only then does the missing model end the
    cell, with one call made and no generation. *)
Theorem mistral_generate_tokenizes_before_it_needs_the_model (L : Library)
  (t : string) (k : Kernel L (Mistral.NS L)) :
  (Mistral.tokenizer (ns k) = None ->
   Mistral.generate t k =
   (Raised (NameError "tokenizer"),
    {| ns := Mistral.set_text t (ns k);
       world := world k; stdout := stdout k; calls := calls k |})) /\
  (forall tok enc w1,
      Mistral.tokenizer (ns k) = Some tok ->
      Mistral.model (ns k) = None ->
      tokenizer_call L tok t "pt" false (world k) = (Returned enc, w1) ->
      Mistral.generate t k =
      (Raised (NameError "model"),
       {| ns := Mistral.set_model_input enc
                  (Mistral.set_encoded enc (Mistral.set_text t (ns k)));
          world := w1; stdout := stdout k;
          calls := calls k ++ [TokenizerCall tok t] |})).
Proof.
  destruct k as [n w out cs]. destruct n as [a b m tok c d f g h i].
  cbn [ns world stdout calls Mistral.tokenizer Mistral.model]. split.
  - intros ->. reflexivity.
  - intros tok' enc w1 -> -> Htok.
    unfold Mistral.generate. cell_unfold. cbn. rewrite Htok. reflexivity.
Qed.

Lemma mistral_generate_tokenizes_before_it_needs_the_model_witness :
  fst (Mistral.generation_cell
         (snd (run_cells [Mistral.model_name_cell; Mistral.tokenizer_cell]
                 (Faulty.mistral_fresh Faulty.none))))
  = Raised (NameError "model") /\
  generation_calls
    (calls (snd (Mistral.generation_cell
                   (snd (run_cells
                           [Mistral.model_name_cell; Mistral.tokenizer_cell]
                           (Faulty.mistral_fresh Faulty.none)))))) = 0.
Proof.
  unfold Mistral.generation_cell.
  rewrite (proj2 (mistral_generate_tokenizes_before_it_needs_the_model
                    "[INST] ~Add your instrunctions here~ [/INST]"
                    (snd (run_cells
                            [Mistral.model_name_cell; Mistral.tokenizer_cell]
                            (Faulty.mistral_fresh Faulty.none))))
             {| tok_name :=
                  "filipealmeida/Mistral-7B-Instruct-v0.1-sharded";
                tok_bos_token_id := Some 1%Z;
                tok_eos_token_id := Some 2%Z |}
             _ [] eq_refl eq_refl eq_refl).
  split; reflexivity.
Defined.

(** ** The Mistral loading cells *)

Section MistralLoading.
Context {L : Library}.

Lemma mistral_tokenizer_cell_run (stops : list Z)
  (k : Kernel L (Mistral.NS L)) :
  Mistral.tokenizer_cell_with stops k =
  match Mistral.model_name (ns k) with
  | None => (Raised (NameError "AutoTokenizer"), k)
  | Some name =>
      match AutoTokenizer_from_pretrained L name (world k) with
      | (Raised e, w1) =>
          (Raised e,
           {| ns := ns k; world := w1; stdout := stdout k;
              calls := calls k ++ [LoadTokenizer name] |})
      | (Returned tok, w1) =>
          (Returned tt,
           {| ns := Mistral.set_stop_token_ids (Some stops)
                      (Mistral.set_tokenizer (set_bos_token_id 1 tok)
                         (Mistral.set_tokenizer tok (ns k)));
              world := w1;
              stdout := stdout k ++
                        [("Successfully loaded the model " ++ name ++
                          " into memory")%string];
              calls := calls k ++ [LoadTokenizer name] |})
      end
  end.
Proof.
  destruct k as [n w out cs]. destruct n as [a b m tok c d f g h i].
  unfold Mistral.tokenizer_cell_with. cell_unfold. cbn.
  destruct a as [name|]; [|reflexivity]. cbn.
  destruct (AutoTokenizer_from_pretrained L name w) as [[tok'|e] w1];
    reflexivity.
Qed.

Lemma mistral_model_cell_run (k : Kernel L (Mistral.NS L)) :
  Mistral.model_cell k =
  match Mistral.model_name (ns k) with
  | None => (Raised (NameError "AutoModelForCausalLM"), k)
  | Some name =>
      match Mistral.bnb_config (ns k) with
      | None => (Raised (NameError "bnb_config"), k)
      | Some cfg =>
          match AutoModelForCausalLM_from_pretrained L name true bfloat16
                  cfg (world k) with
          | (Raised e, w1) =>
              (Raised e,
               {| ns := ns k; world := w1; stdout := stdout k;
                  calls := calls k ++ [LoadModel name cfg] |})
          | (Returned m, w1) =>
              (Returned tt,
               {| ns := Mistral.set_model m (ns k); world := w1;
                  stdout := stdout k;
                  calls := calls k ++ [LoadModel name cfg] |})
          end
      end
  end.
Proof.
  destruct k as [n w out cs]. destruct n as [a b m tok c d f g h i].
  unfold Mistral.model_cell. cell_unfold. cbn.
  destruct a as [name|]; [|reflexivity]. cbn.
  destruct b as [cfg|]; [|reflexivity]. cbn.
  destruct (AutoModelForCausalLM_from_pretrained L name true bfloat16 cfg w)
    as [[m'|e] w1]; reflexivity.
Qed.

End MistralLoading.

(** X9.  The tokenizer cell announces the model as loaded whenever the
    tokenizer loads, whether or not a model is bound: it never looks at
    [model].  On the way it forces the beginning-of-sequence id to 1,
    keeping the tokenizer's end-of-sequence id, and binds the stop list.
    If the tokenizer does not load, nothing is announced and neither
    [tokenizer] nor [stop_token_ids] is rebound. *)
Theorem mistral_tokenizer_cell_announces_without_model (L : Library)
  (k : Kernel L (Mistral.NS L)) (name : string) :
  Mistral.model_name (ns k) = Some name ->
  (forall tok w1,
      AutoTokenizer_from_pretrained L name (world k) = (Returned tok, w1) ->
      fst (Mistral.tokenizer_cell k) = Returned tt /\
      stdout (snd (Mistral.tokenizer_cell k)) =
      stdout k ++
      [("Successfully loaded the model " ++ name ++ " into memory")%string] /\
      Mistral.model (ns (snd (Mistral.tokenizer_cell k))) =
      Mistral.model (ns k) /\
      Mistral.tokenizer (ns (snd (Mistral.tokenizer_cell k))) =
      Some {| tok_name := tok_name tok;
              tok_bos_token_id := Some 1%Z;
              tok_eos_token_id := tok_eos_token_id tok |} /\
      Mistral.stop_token_ids (ns (snd (Mistral.tokenizer_cell k))) =
      Some [0%Z]) /\
  (forall e w1,
      AutoTokenizer_from_pretrained L name (world k) = (Raised e, w1) ->
      fst (Mistral.tokenizer_cell k) = Raised e /\
      stdout (snd (Mistral.tokenizer_cell k)) = stdout k /\
      Mistral.tokenizer (ns (snd (Mistral.tokenizer_cell k))) =
      Mistral.tokenizer (ns k) /\
      Mistral.stop_token_ids (ns (snd (Mistral.tokenizer_cell k))) =
      Mistral.stop_token_ids (ns k)).
Proof.
  intros Hname. unfold Mistral.tokenizer_cell.
  rewrite mistral_tokenizer_cell_run, Hname. split.
  - intros tok w1 ->. repeat split; reflexivity.
  - intros e w1 ->. repeat split; reflexivity.
Qed.

Lemma mistral_tokenizer_cell_announces_without_model_witness :
  Mistral.model
    (ns (snd (run_cells [Mistral.model_name_cell; Mistral.tokenizer_cell]
                (Faulty.mistral_fresh Faulty.none)))) = None /\
  stdout (snd (run_cells [Mistral.model_name_cell; Mistral.tokenizer_cell]
                 (Faulty.mistral_fresh Faulty.none))) =
  ["Successfully loaded the model filipealmeida/Mistral-7B-Instruct-v0.1-sharded into memory"%string]
  /\
  Mistral.tokenizer
    (ns (snd (run_cells [Mistral.model_name_cell; Mistral.tokenizer_cell]
                (Faulty.mistral_fresh Faulty.none)))) =
  Some {| tok_name := "filipealmeida/Mistral-7B-Instruct-v0.1-sharded";
          tok_bos_token_id := Some 1%Z;
          tok_eos_token_id := Some 2%Z |}.
Proof.
  destruct (proj1 (@mistral_tokenizer_cell_announces_without_model
                     (Faulty.library Faulty.none)
                     (snd (Mistral.model_name_cell
                             (Faulty.mistral_fresh Faulty.none)))
                     "filipealmeida/Mistral-7B-Instruct-v0.1-sharded"
                     eq_refl)
              {| tok_name := "filipealmeida/Mistral-7B-Instruct-v0.1-sharded";
                 tok_bos_token_id := None;
                 tok_eos_token_id := Some 2%Z |}
              [] eq_refl)
    as [_ [Hprinted [Hmodel [Htok _]]]].
  split; [exact Hmodel|]. split; [exact Hprinted | exact Htok].
Defined.

(** X11.  The model cell needs the first cell and the configuration
    cell to have run.  Before the first cell (the imports and
    [model_name]) it ends in a [NameError] for [AutoModelForCausalLM],
    the first name it reads; after it, without a configuration, in a
    [NameError] for [bnb_config]; either way the kernel is left as it was
    found, with no call made.  With both it asks the library once, for
    that name and that configuration, and [model] is rebound only if the
    library returns. *)
Theorem mistral_model_cell_needs_imports_and_config (L : Library)
  (k : Kernel L (Mistral.NS L)) :
  (Mistral.model_name (ns k) = None ->
   Mistral.model_cell k = (Raised (NameError "AutoModelForCausalLM"), k)) /\
  (forall name,
      Mistral.model_name (ns k) = Some name ->
      Mistral.bnb_config (ns k) = None ->
      Mistral.model_cell k = (Raised (NameError "bnb_config"), k)) /\
  (forall name cfg,
      Mistral.model_name (ns k) = Some name ->
      Mistral.bnb_config (ns k) = Some cfg ->
      calls (snd (Mistral.model_cell k)) = calls k ++ [LoadModel name cfg] /\
      fst (Mistral.model_cell k) =
      discard (fst (AutoModelForCausalLM_from_pretrained L name true
                      bfloat16 cfg (world k))) /\
      (forall e, fst (Mistral.model_cell k) = Raised e ->
                 Mistral.model (ns (snd (Mistral.model_cell k))) =
                 Mistral.model (ns k))).
Proof.
  rewrite mistral_model_cell_run. split; [|split].
  - intros ->. reflexivity.
  - intros name -> ->. reflexivity.
  - intros name cfg -> ->.
    destruct (AutoModelForCausalLM_from_pretrained L name true bfloat16 cfg
                (world k)) as [[m|e] w1]; cbn [fst snd calls ns discard].
    + split; [reflexivity|]. split; [reflexivity|]. discriminate.
    + repeat split; reflexivity.
Qed.

Lemma mistral_model_cell_needs_imports_and_config_witness :
  Mistral.model_cell (Faulty.mistral_fresh Faulty.none) =
  (Raised (NameError "AutoModelForCausalLM"),
   Faulty.mistral_fresh Faulty.none) /\
  fst (Mistral.model_cell
         (snd (Mistral.model_name_cell (Faulty.mistral_fresh Faulty.none))))
  = Raised (NameError "bnb_config").
Proof.
  split.
  - exact (proj1 (mistral_model_cell_needs_imports_and_config
                    (Faulty.mistral_fresh Faulty.none)) eq_refl).
  - rewrite (proj1 (proj2 (mistral_model_cell_needs_imports_and_config
                             (snd (Mistral.model_name_cell
                                     (Faulty.mistral_fresh Faulty.none)))))
               "filipealmeida/Mistral-7B-Instruct-v0.1-sharded"%string
               eq_refl eq_refl).
    reflexivity.
Defined.

(** ** The Mistral notebook, top to bottom *)

(** X12.  A configuration that the constructor refuses stops the notebook
    short of any generation.  Run top to bottom from a fresh kernel, the
    configuration cell raises, the model cell then misses [bnb_config]
    and never asks the library for the model, and the generation cell
    ends in an exception too: no model is bound, no model is loaded
    without its configuration, nothing is generated. *)
Theorem mistral_failed_config_blocks_generation (L : Library)
  (w w1 : World L) (e : PyExn) :
  BitsAndBytesConfig_init L Mistral.notebook_profile w = (Raised e, w1) ->
  (exists o4 e5,
      fst (run_cells Mistral.notebook
             (fresh_kernel L (Mistral.empty_ns L) w)) =
      [Returned tt; Raised e; Raised (NameError "bnb_config"); o4;
       Raised e5]) /\
  Mistral.model
    (ns (snd (run_cells Mistral.notebook
                (fresh_kernel L (Mistral.empty_ns L) w)))) = None /\
  generation_calls
    (calls (snd (run_cells Mistral.notebook
                   (fresh_kernel L (Mistral.empty_ns L) w)))) = 0 /\
  (forall name cfg,
      ~ In (LoadModel name cfg)
          (calls (snd (run_cells Mistral.notebook
                         (fresh_kernel L (Mistral.empty_ns L) w))))).
Proof.
  intros Hcfg.
  unfold Mistral.notebook, Mistral.model_name_cell, Mistral.bnb_config_cell,
    Mistral.bnb_config_cell_with, Mistral.model_cell, Mistral.tokenizer_cell,
    Mistral.tokenizer_cell_with, Mistral.generation_cell, Mistral.generate,
    fresh_kernel.
  cbn [run_cells]. cell_unfold. cbn. rewrite Hcfg. cbn.
  destruct (AutoTokenizer_from_pretrained L
              "filipealmeida/Mistral-7B-Instruct-v0.1-sharded" w1)
    as [[tok|x] w2]; cbn.
  - destruct (tokenizer_call L (set_bos_token_id 1 tok)
                "[INST] ~Add your instrunctions here~ [/INST]" "pt" false w2)
      as [[enc|y] w3]; cbn.
    + split; [eexists; eexists; reflexivity|].
      split; [reflexivity|]. split; [reflexivity|].
      intros name cfg [H|[H|[H|[]]]]; discriminate H.
    + split; [eexists; eexists; reflexivity|].
      split; [reflexivity|]. split; [reflexivity|].
      intros name cfg [H|[H|[H|[]]]]; discriminate H.
  - split; [eexists; eexists; reflexivity|].
    split; [reflexivity|]. split; [reflexivity|].
    intros name cfg [H|[H|[]]]; discriminate H.
Qed.

Lemma mistral_failed_config_blocks_generation_witness :
  fst (run_cells Mistral.notebook (Faulty.mistral_fresh Faulty.no_config)) =
  [Returned tt; Raised (LibraryError "ValueError");
   Raised (NameError "bnb_config"); Returned tt;
   Raised (NameError "model")] /\
  generation_calls
    (calls (snd (run_cells Mistral.notebook
                   (Faulty.mistral_fresh Faulty.no_config)))) = 0.
Proof.
  destruct (@mistral_failed_config_blocks_generation
              (Faulty.library Faulty.no_config) [] []
              (LibraryError "ValueError") eq_refl)
    as [_ [_ [Hnone _]]].
  split; [reflexivity | exact Hnone].
Defined.

(** X13.  The Mistral notebook run top to bottom when every library call
    returns.  The model is loaded with the configuration object the
    constructor returned; the text is encoded and the result decoded with
    the same tokenizer, the loaded one with its beginning-of-sequence id
    set to 1; what the tokenizer returns goes to [model.generate]
    unchanged and what [model.generate] returns goes to the decoder
    unchanged.  Six calls are made, in this order, and two lines are
    printed: the announcement and the first decoded row. *)
Theorem mistral_notebook_run (L : Library) (w w1 w2 w3 w4 w5 w6 : World L)
  (cfg : BitsAndBytesConfig) (m : ModelObj L) (tok : Tokenizer)
  (enc : BatchEncoding) (ids : list (list Z)) (first : string)
  (rest : list string) :
  BitsAndBytesConfig_init L Mistral.notebook_profile w = (Returned cfg, w1) ->
  AutoModelForCausalLM_from_pretrained L
    "filipealmeida/Mistral-7B-Instruct-v0.1-sharded" true bfloat16 cfg w1
  = (Returned m, w2) ->
  AutoTokenizer_from_pretrained L
    "filipealmeida/Mistral-7B-Instruct-v0.1-sharded" w2 = (Returned tok, w3) ->
  tokenizer_call L (set_bos_token_id 1 tok)
    "[INST] ~Add your instrunctions here~ [/INST]" "pt" false w3
  = (Returned enc, w4) ->
  model_generate L m enc Mistral.generate_kwargs w4 = (Returned ids, w5) ->
  tokenizer_batch_decode L (set_bos_token_id 1 tok) ids w5
  = (Returned (first :: rest), w6) ->
  fst (run_cells Mistral.notebook (fresh_kernel L (Mistral.empty_ns L) w)) =
  [Returned tt; Returned tt; Returned tt; Returned tt; Returned tt] /\
  calls (snd (run_cells Mistral.notebook
                (fresh_kernel L (Mistral.empty_ns L) w))) =
  [BuildQuantConfig Mistral.notebook_profile;
   LoadModel "filipealmeida/Mistral-7B-Instruct-v0.1-sharded" cfg;
   LoadTokenizer "filipealmeida/Mistral-7B-Instruct-v0.1-sharded";
   TokenizerCall (set_bos_token_id 1 tok)
     "[INST] ~Add your instrunctions here~ [/INST]";
   ModelGenerate m enc Mistral.generate_kwargs;
   BatchDecode (set_bos_token_id 1 tok) ids] /\
  stdout (snd (run_cells Mistral.notebook
                 (fresh_kernel L (Mistral.empty_ns L) w))) =
  ["Successfully loaded the model filipealmeida/Mistral-7B-Instruct-v0.1-sharded into memory"%string;
   first] /\
  world (snd (run_cells Mistral.notebook
                (fresh_kernel L (Mistral.empty_ns L) w))) = w6.
Proof.
  intros Hcfg Hmodel Htok Henc Hgen Hdec.
  unfold Mistral.notebook, Mistral.model_name_cell, Mistral.bnb_config_cell,
    Mistral.bnb_config_cell_with, Mistral.model_cell, Mistral.tokenizer_cell,
    Mistral.tokenizer_cell_with, Mistral.generation_cell, Mistral.generate,
    fresh_kernel.
  cbn [run_cells]. cell_unfold. cbn.
  rewrite Hcfg. cbn. rewrite Hmodel. cbn. rewrite Htok. cbn.
  rewrite Henc. cbn. rewrite Hgen. cbn. rewrite Hdec. cbn.
  repeat split; reflexivity.
Qed.

Lemma mistral_notebook_run_witness :
  fst (run_cells Mistral.notebook (Faulty.mistral_fresh Faulty.none)) =
  [Returned tt; Returned tt; Returned tt; Returned tt; Returned tt] /\
  List.length
    (stdout (snd (run_cells Mistral.notebook
                    (Faulty.mistral_fresh Faulty.none)))) = 2.
Proof.
  destruct (@mistral_notebook_run (Faulty.library Faulty.none)
              [] [] [] [] [] [] []
              Mistral.notebook_profile tt
              {| tok_name :=
                   "filipealmeida/Mistral-7B-Instruct-v0.1-sharded";
                 tok_bos_token_id := None;
                 tok_eos_token_id := Some 2%Z |}
              _ _ _ []
              eq_refl eq_refl eq_refl eq_refl eq_refl eq_refl)
    as [Hout [_ [Hprinted _]]].
  split; [exact Hout|]. 
  change (Faulty.mistral_fresh Faulty.none)
    with (fresh_kernel (Faulty.library Faulty.none)
            (Mistral.empty_ns (Faulty.library Faulty.none)) []).
  rewrite Hprinted. reflexivity.
Defined.

(** ** What the generation cells leave alone *)

(** X14.  A generation cell never rebinds what the loading cells bound,
    whatever the kernel it starts from and however it ends.  The Falcon
    cell leaves the model names, the tokenizer and the pipeline as they
    were; the Mistral cell leaves the model name, the configuration, the
    model, the tokenizer and the stop list as they were.  So a generation
    cell can be run again without loading again. *)
Theorem generation_cells_keep_loaded_globals (L : Library) :
  (forall (r : Falcon.GenerationRequest) (k : Kernel L (Falcon.NS L)),
      Falcon.model7b (ns (snd (Falcon.generate r k))) = Falcon.model7b (ns k)
      /\
      Falcon.model40b (ns (snd (Falcon.generate r k)))
      = Falcon.model40b (ns k) /\
      Falcon.model (ns (snd (Falcon.generate r k))) = Falcon.model (ns k) /\
      Falcon.tokenizer (ns (snd (Falcon.generate r k)))
      = Falcon.tokenizer (ns k) /\
      Falcon.pipeline (ns (snd (Falcon.generate r k)))
      = Falcon.pipeline (ns k)) /\
  (forall (t : string) (k : Kernel L (Mistral.NS L)),
      Mistral.model_name (ns (snd (Mistral.generate t k)))
      = Mistral.model_name (ns k) /\
      Mistral.bnb_config (ns (snd (Mistral.generate t k)))
      = Mistral.bnb_config (ns k) /\
      Mistral.model (ns (snd (Mistral.generate t k))) = Mistral.model (ns k)
      /\
      Mistral.tokenizer (ns (snd (Mistral.generate t k)))
      = Mistral.tokenizer (ns k) /\
      Mistral.stop_token_ids (ns (snd (Mistral.generate t k)))
      = Mistral.stop_token_ids (ns k)).
Proof.
  split.
  - intros r k.
    assert (Hloop : forall seqs (n : Falcon.NS L),
               Falcon.model7b
                 (fold_left (fun n s => Falcon.set_seq s n) seqs n)
               = Falcon.model7b n /\
               Falcon.model40b
                 (fold_left (fun n s => Falcon.set_seq s n) seqs n)
               = Falcon.model40b n /\
               Falcon.model
                 (fold_left (fun n s => Falcon.set_seq s n) seqs n)
               = Falcon.model n).
    { induction seqs as [|s seqs IH]; intros n; cbn [fold_left];
        [repeat split; reflexivity|].
      destruct (IH (Falcon.set_seq s n)) as [-> [-> ->]].
      repeat split; reflexivity. }
    destruct (Falcon.pipeline (ns k)) as [p|] eqn:Hp.
    + destruct (Falcon.tokenizer (ns k)) as [tok|] eqn:Ht.
      * rewrite (falcon_generate_run r (conj Hp Ht)).
        destruct (pipeline_call L p (Falcon.req_prompt r)
                    (Falcon.kwargs_of r tok) (world k)) as [[seqs|e] w'];
          cbn [snd ns].
        -- destruct (Hloop seqs
                       (Falcon.set_sequences seqs
                          (Falcon.set_prompt (Falcon.req_prompt r) (ns k))))
             as [-> [-> ->]].
           destruct (falcon_loop_keeps_globals seqs
                       (Falcon.set_sequences seqs
                          (Falcon.set_prompt (Falcon.req_prompt r) (ns k))))
             as [-> ->].
           cbn. rewrite Hp, Ht. repeat split; reflexivity.
        -- cbn. rewrite Hp, Ht. repeat split; reflexivity.
      * rewrite (proj2 (falcon_generate_needs_loaded_globals_aux r k) p Hp Ht).
        cbn. rewrite Hp, Ht. repeat split; reflexivity.
    + rewrite (proj1 (falcon_generate_needs_loaded_globals_aux r k) Hp).
      cbn. rewrite Hp. repeat split; reflexivity.
  - intros t k.
    destruct k as [n w out cs]. destruct n as [a b m tok c d f g h i].
    unfold Mistral.generate. cell_unfold. cbn.
    destruct tok as [tok|]; [|repeat split; reflexivity]. cbn.
    destruct (tokenizer_call L tok t "pt" false w) as [[enc|x] w1];
      [|repeat split; reflexivity].
    cbn. destruct m as [m|]; [|repeat split; reflexivity]. cbn.
    destruct (model_generate L m enc Mistral.generate_kwargs w1)
      as [[ids|x] w2]; [|repeat split; reflexivity].
    cbn.
    destruct (tokenizer_batch_decode L tok ids w2) as [[strs|x] w3];
      [|repeat split; reflexivity].
    cbn. destruct strs as [|first rest]; repeat split; reflexivity.
Qed.
